(** * education-salon: the DeepResearch collector and the Slack notifier

    A shallow embedding of [scripts/deepresearch_collector.py] and
    [scripts/slack_notifier.py].

    - A Python [str] is a sequence of Unicode code points ([list N]); the
      literals of the scripts are written as UTF-8 text and decoded by [u].
    - A Python value that travels through JSON is a [pyval]; a [dict] is an
      association list in insertion order with unique keys, which is what
      [json.dump] writes out.
    - A Python [float] is an IEEE 754 binary64 number, [spec_float] with
      [prec = 53] and [emax = 1024].
    - Logging, the clock, the file system, [time.sleep] and the [requests]
      library are effects: a state and exception monad [M] over a [World],
      with the answers of the outside world given by an [Env]. *)

From Stdlib Require Import ZArith NArith List String Ascii Bool Lia.
From Stdlib Require Import DecimalString.
From Stdlib Require Import Floats.SpecFloat.
Import ListNotations.

Local Open Scope Z_scope.

(* ================================================================= *)
(** ** Strings *)

Module Str.

Definition str := list N.

Fixpoint eqb (a b : str) : bool :=
  match a, b with
  | [], [] => true
  | x :: a', y :: b' => (x =? y)%N && eqb a' b'
  | _, _ => false
  end.

(** UTF-8 decoding of the bytes of a literal: [pending] continuation bytes
    are still expected for the code point accumulated in [acc]. *)
Fixpoint utf8_decode (bs : list N) (pending : nat) (acc : N) : str :=
  match bs with
  | [] => []
  | b :: rest =>
      match pending with
      | O =>
          if (b <? 0x80)%N then b :: utf8_decode rest 0 0%N
          else if (b <? 0xE0)%N then utf8_decode rest 1 (N.land b 0x1F)
          else if (b <? 0xF0)%N then utf8_decode rest 2 (N.land b 0x0F)
          else utf8_decode rest 3 (N.land b 0x07)
      | S O => (acc * 64 + N.land b 0x3F)%N :: utf8_decode rest 0 0%N
      | S k => utf8_decode rest k (acc * 64 + N.land b 0x3F)%N
      end
  end.

Definition u (s : string) : str :=
  utf8_decode (map N_of_ascii (list_ascii_of_string s)) 0 0%N.

(** [chr(n)] *)
Definition chr (n : Z) : str := [Z.to_N n].

(** [str(n)] and [f"{n}"] for an [int] *)
Definition of_int (n : Z) : str :=
  map N_of_ascii (list_ascii_of_string (NilZero.string_of_int (Z.to_int n))).

Fixpoint is_prefix (p s : str) : bool :=
  match p, s with
  | [], _ => true
  | _ :: _, [] => false
  | a :: p', b :: s' => (a =? b)%N && is_prefix p' s'
  end.

(** [s.replace(old, new)] for a non-empty [old]: scan from the left, replace
    each match and go on after it ([skip] characters of the current match are
    still to be dropped). *)
Fixpoint replace_from (old new : str) (skip : nat) (s : str) : str :=
  match s with
  | [] => []
  | c :: t =>
      match skip with
      | S k => replace_from old new k t
      | O =>
          if is_prefix old s
          then new ++ replace_from old new (List.length old - 1) t
          else c :: replace_from old new 0 t
      end
  end.

(** [s.replace(old, new)]; an empty [old] matches before every character
    and at the end. *)
Definition replace (s old new : str) : str :=
  match old with
  | [] => new ++ flat_map (fun c => c :: new) s
  | _ :: _ => replace_from old new 0 s
  end.

(** [s[:n]] *)
Definition slice_to (n : nat) (s : str) : str := firstn n s.

Definition concat (l : list str) : str := List.concat l.

End Str.

Import Str.

(* ================================================================= *)
(** ** Values, floats and exceptions *)

(** What [json.load] can return and [json.dump] can write. A [dict] keeps
    its keys in insertion order. *)
#[local] Set Warnings "-register-all".
Inductive pyval :=
| PNone
| PBool (b : bool)
| PInt (z : Z)
| PFloat (f : spec_float)
| PStr (s : str)
| PList (l : list pyval)
| PDict (d : list (str * pyval)).

Section Dict.
Context {V : Type}.

(** [d[k]] as a lookup *)
Fixpoint dict_lookup (d : list (str * V)) (k : str) : option V :=
  match d with
  | [] => None
  | (k', v) :: d' => if Str.eqb k' k then Some v else dict_lookup d' k
  end.

(** [d[k] = v]: an existing key keeps its place, a new key goes last. *)
Fixpoint dict_set (d : list (str * V)) (k : str) (v : V) : list (str * V) :=
  match d with
  | [] => [(k, v)]
  | (k', v') :: d' =>
      if Str.eqb k' k then (k', v) :: d' else (k', v') :: dict_set d' k v
  end.

Definition keys (d : list (str * V)) : list str := map fst d.
Definition values (d : list (str * V)) : list V := map snd d.
Definition len (d : list (str * V)) : Z := Z.of_nat (List.length d).
End Dict.

(** [type(v).__name__], as the messages of [TypeError] and
    [AttributeError] print it *)
Definition type_name (v : pyval) : str :=
  match v with
  | PNone => u "NoneType"
  | PBool _ => u "bool"
  | PInt _ => u "int"
  | PFloat _ => u "float"
  | PStr _ => u "str"
  | PList _ => u "list"
  | PDict _ => u "dict"
  end.

(** [bool(v)], as [if v:] and [not v] take it *)
Definition truthy (v : pyval) : bool :=
  match v with
  | PNone => false
  | PBool b => b
  | PInt z => negb (z =? 0)
  | PFloat f => match f with S754_zero _ => false | _ => true end
  | PStr s => match s with [] => false | _ => true end
  | PList l => match l with [] => false | _ => true end
  | PDict d => match d with [] => false | _ => true end
  end.

(** an optional string such as [os.getenv] returns: [None] and [''] are falsy *)
Definition truthy_opt (o : option str) : bool :=
  match o with Some (_ :: _) => true | _ => false end.

(** The exceptions of the scripts, all of them subclasses of [Exception];
    signals outside [Exception] such as [KeyboardInterrupt] are not
    modelled. The classes from [RequestException] to [JSONDecodeError] are
    those of [requests.exceptions]; [UnicodeEncodeError] is the built-in one,
    a [ValueError]. *)
Inductive exn_class :=
| ZeroDivisionError | OverflowError | TypeError | AttributeError | KeyError | OSError
| UnicodeEncodeError
| RequestException | HTTPError | Timeout | ConnectionError | JSONDecodeError
| OtherException.

Record exn := mk_exn { exn_class_of : exn_class; exn_msg : str }.

(** [isinstance(e, requests.exceptions.RequestException)] *)
Definition is_RequestException (e : exn) : bool :=
  match exn_class_of e with
  | RequestException | HTTPError | Timeout | ConnectionError | JSONDecodeError => true
  | _ => false
  end.

Inductive result (A : Type) :=
| Ok (a : A)
| Raise (e : exn).
Arguments Ok {A} a.
Arguments Raise {A} e.

Module Float.

Definition float := spec_float.
Definition prec := 53.
Definition emax := 1024.

(** an [int] as an integer mantissa with exponent 0 *)
Definition raw (z : Z) : float :=
  match z with
  | Z0 => S754_zero false
  | Zpos p => S754_finite false p 0
  | Zneg p => S754_finite true p 0
  end.

(** [float(z)] *)
Definition of_int (z : Z) : float := binary_normalize prec emax z 0 false.

(** [a / b] on two [int]s: the correctly rounded quotient. *)
Definition int_truediv (a b : Z) : result float :=
  if b =? 0 then Raise (mk_exn ZeroDivisionError (u "division by zero"))
  else match SFdiv prec emax (raw a) (raw b) with
       | S754_infinity _ =>
           Raise (mk_exn OverflowError (u "integer division result too large for a float"))
       | q => Ok q
       end.

Definition mul (x y : float) : float := SFmul prec emax x y.
Definition div (x y : float) : float := SFdiv prec emax x y.

(** [z < x] for an [int] and a [float], compared exactly *)
Definition int_ltb (z : Z) (x : float) : bool :=
  match x with
  | S754_nan => false
  | S754_infinity s => negb s
  | S754_zero _ => z <? 0
  | S754_finite s m e =>
      let v := if s then Zneg m else Zpos m in
      if 0 <=? e then z <? v * 2 ^ e else z * 2 ^ (- e) <? v
  end.

(** the integer nearest to [n / d], ties to even ([0 < d]) *)
Definition round_half_even (n d : Z) : Z :=
  let q := n / d in
  let r := n mod d in
  match 2 * r ?= d with
  | Lt => q
  | Gt => q + 1
  | Eq => if Z.even q then q else q + 1
  end.

(** the magnitude of a finite float in tenths, rounded to nearest *)
Definition tenths (m : positive) (e : Z) : Z :=
  if 0 <=? e then Zpos m * 2 ^ e * 10
  else round_half_even (Zpos m * 10) (2 ^ (- e)).

Definition sign_str (s : bool) : str := if s then u "-" else [].

(** [f"{x:.1f}"] *)
Definition format_1f (x : float) : str :=
  match x with
  | S754_nan => u "nan"
  | S754_infinity s => sign_str s ++ u "inf"
  | S754_zero s => sign_str s ++ u "0.0"
  | S754_finite s m e =>
      let t := tenths m e in
      sign_str s ++ Str.of_int (t / 10) ++ u "." ++ Str.of_int (t mod 10)
  end.

End Float.

(* ================================================================= *)
(** ** The outside world and the effect monad *)

Inductive level := INFO | WARNING | ERROR.

(** a [requests.Response]: what [raise_for_status] and [json()] go by *)
Record Response := {
  status_code : Z;
  http_error_msg : str;
  json_body : result pyval
}.

(** The answers of the outside world during one process. The clock, the
    HTTP library and the file system are asked by call number. [hash] is the
    built-in string hash, fixed for the process; [repr] is the text that an
    f-string gives a float or a container. [write_json] is the exception
    that leaves the block [with open(path, 'w') as f: json.dump(v, f)], if
    any; for a block that fails, [file_opened] tells whether [open] had
    succeeded, so that the failure came while writing or closing. *)
Record Env := {
  getenv : str -> option str;
  hash : str -> Z;
  repr : pyval -> str;
  isoformat : nat -> str;
  timestamp : nat -> Float.float;
  requests_get : nat -> str -> list (str * str) -> pyval -> Z -> result Response;
  requests_post : nat -> str -> pyval -> Z -> result Response;
  write_json : nat -> str -> pyval -> option exn;
  file_opened : nat -> str -> bool;
  mkdir : str -> option exn
}.

(** What a file holds: the text of a whole JSON document, or what a write
    that broke off has left of the text of one, anything from nothing to
    all of it. *)
Inductive file :=
| Document (v : pyval)
| Partial (v : pyval).

Record World := {
  clock : nat;
  http_calls : nat;
  fs_calls : nat;
  files : list (str * file);
  log : list (level * str);
  slept : list Z
}.

Definition M (A : Type) : Type := World -> result A * World.

Definition ret {A} (a : A) : M A := fun w => (Ok a, w).

Definition bind {A B} (c : M A) (k : A -> M B) : M B :=
  fun w => match c w with
           | (Ok a, w') => k a w'
           | (Raise e, w') => (Raise e, w')
           end.

Definition raise {A} (e : exn) : M A := fun w => (Raise e, w).

Definition lift {A} (r : result A) : M A := fun w => (r, w).

(** [try: c  except <catches> as e: h e] *)
Definition try_except {A} (c : M A) (catches : exn -> bool) (h : exn -> M A) : M A :=
  fun w => match c w with
           | (Ok a, w') => (Ok a, w')
           | (Raise e, w') => if catches e then h e w' else (Raise e, w')
           end.

(** [except Exception] *)
Definition any_Exception (e : exn) : bool := true.

Notation "x <- c ;; k" := (bind c (fun x => k))
  (at level 61, c at next level, right associativity).
Notation "c ;;; k" := (bind c (fun _ => k))
  (at level 61, right associativity).

Fixpoint mapM {A B} (f : A -> M B) (l : list A) : M (list B) :=
  match l with
  | [] => ret []
  | a :: l' => b <- f a ;; bs <- mapM f l' ;; ret (b :: bs)
  end.

Fixpoint foldM {A S} (f : S -> A -> M S) (s : S) (l : list A) : M S :=
  match l with
  | [] => ret s
  | a :: l' => s' <- f s a ;; foldM f s' l'
  end.

(** [enumerate(l, start)] *)
Fixpoint enumerate {A} (l : list A) (start : Z) : list (Z * A) :=
  match l with
  | [] => []
  | a :: l' => (start, a) :: enumerate l' (start + 1)
  end.

Definition nl : str := [10%N].

Section Effects.
Variable E : Env.

Definition logger (lv : level) (msg : str) : M unit :=
  fun w => (Ok tt, {| clock := clock w; http_calls := http_calls w;
                      fs_calls := fs_calls w; files := files w;
                      log := log w ++ [(lv, msg)]; slept := slept w |}).

(** [datetime.now().isoformat()] *)
Definition now_isoformat : M str :=
  fun w => (Ok (isoformat E (clock w)),
            {| clock := S (clock w); http_calls := http_calls w;
               fs_calls := fs_calls w; files := files w;
               log := log w; slept := slept w |}).

(** [datetime.now().timestamp()] *)
Definition now_timestamp : M Float.float :=
  fun w => (Ok (timestamp E (clock w)),
            {| clock := S (clock w); http_calls := http_calls w;
               fs_calls := fs_calls w; files := files w;
               log := log w; slept := slept w |}).

(** [time.sleep(n)] *)
Definition sleep (n : Z) : M unit :=
  fun w => (Ok tt, {| clock := clock w; http_calls := http_calls w;
                      fs_calls := fs_calls w; files := files w;
                      log := log w; slept := slept w ++ [n] |}).

Definition tick_http (w : World) : World :=
  {| clock := clock w; http_calls := S (http_calls w);
     fs_calls := fs_calls w; files := files w;
     log := log w; slept := slept w |}.

(** [requests.get(url, headers=..., params=..., timeout=...)] *)
Definition get (url : str) (headers : list (str * str)) (params : pyval)
    (timeout : Z) : M Response :=
  fun w => (requests_get E (http_calls w) url headers params timeout, tick_http w).

(** [requests.post(url, json=..., timeout=...)] *)
Definition post (url : str) (payload : pyval) (timeout : Z) : M Response :=
  fun w => (requests_post E (http_calls w) url payload timeout, tick_http w).

(** [response.raise_for_status()] *)
Definition raise_for_status (r : Response) : M unit :=
  if (400 <=? status_code r) && (status_code r <? 600)
  then raise (mk_exn HTTPError (http_error_msg r))
  else ret tt.

(** [response.json()] *)
Definition json (r : Response) : M pyval := lift (json_body r).

(** the file system after one more call, holding [fs] *)
Definition wrote (fs : list (str * file)) (w : World) : World :=
  {| clock := clock w; http_calls := http_calls w;
     fs_calls := S (fs_calls w); files := fs;
     log := log w; slept := slept w |}.

(** [with open(path, 'w', encoding='utf-8') as f:
       json.dump(v, f, ensure_ascii=False, indent=2)].
    A write that succeeds replaces the document at [path]. [open] creates
    the file or empties it, so a block that fails after [open] leaves a part
    of the text at [path], whatever was there before; when [open] itself
    fails the files are as they were. *)
Definition dump_json (path : str) (v : pyval) : M unit :=
  fun w =>
    match write_json E (fs_calls w) path v with
    | None => (Ok tt, wrote (dict_set (files w) path (Document v)) w)
    | Some e =>
        if file_opened E (fs_calls w) path
        then (Raise e, wrote (dict_set (files w) path (Partial v)) w)
        else (Raise e, wrote (files w) w)
    end.

(** a value inside an f-string *)
Definition fmt (v : pyval) : str :=
  match v with
  | PNone => u "None"
  | PBool true => u "True"
  | PBool false => u "False"
  | PInt z => Str.of_int z
  | PStr s => s
  | _ => repr E v
  end.

(** [v.get(k, default)]: only a [dict] has it *)
Definition py_get (v : pyval) (k : str) (default : pyval) : result pyval :=
  match v with
  | PDict d => Ok (match dict_lookup d k with Some x => x | None => default end)
  | _ => Raise (mk_exn AttributeError
                  (u "'" ++ type_name v ++ u "' object has no attribute 'get'"))
  end.

(** [v[k]] for a string [k]; the text of a [KeyError] is the [repr] of the
    key *)
Definition py_item (v : pyval) (k : str) : result pyval :=
  match v with
  | PDict d =>
      match dict_lookup d k with
      | Some x => Ok x
      | None => Raise (mk_exn KeyError (repr E (PStr k)))
      end
  | PStr _ => Raise (mk_exn TypeError (u "string indices must be integers, not 'str'"))
  | PList _ =>
      Raise (mk_exn TypeError (u "list indices must be integers or slices, not str"))
  | _ => Raise (mk_exn TypeError (u "'" ++ type_name v ++ u "' object is not subscriptable"))
  end.

End Effects.

(* ================================================================= *)
(** ** [pathlib] paths on POSIX *)

Module Path.

Definition slash : N := 47.

(** a path as [pathlib] keeps it: the root, which is empty, [/] or [//], and
    the names below it *)
Record t := { root : str; parts : list str }.

(** [s.split('/')]; [name] holds, in reverse, the name being read *)
Fixpoint split (name : str) (s : str) : list str :=
  match s with
  | [] => [rev name]
  | c :: rest =>
      if (c =? slash)%N then rev name :: split [] rest else split (c :: name) rest
  end.

(** the root of a path text: exactly two leading slashes are kept, one
    slash or more than two give [/] *)
Definition root_of (s : str) : str :=
  match s with
  | a :: rest =>
      if (a =? slash)%N then
        match rest with
        | b :: rest' =>
            if (b =? slash)%N then
              match rest' with
              | c :: _ => if (c =? slash)%N then [slash] else [slash; slash]
              | [] => [slash; slash]
              end
            else [slash]
        | [] => [slash]
        end
      else []
  | [] => []
  end.

(** a name is kept unless it is empty or [.] *)
Definition is_name (p : str) : bool :=
  match p with
  | [] => false
  | [c] => negb (c =? 46)%N
  | _ => true
  end.

(** [Path(s)] *)
Definition of_str (s : str) : t :=
  {| root := root_of s; parts := filter is_name (split [] s) |}.

(** [p / name]: a [name] that has a root replaces [p] *)
Definition joinpath (p : t) (name : str) : t :=
  let q := of_str name in
  match root q with
  | [] => {| root := root p; parts := parts p ++ parts q |}
  | _ :: _ => q
  end.

(** ['/'.join(names)] *)
Fixpoint join_names (names : list str) : str :=
  match names with
  | [] => []
  | p :: rest =>
      match rest with
      | [] => p
      | _ :: _ => p ++ slash :: join_names rest
      end
  end.

(** [str(p)] *)
Definition to_str (p : t) : str :=
  match root p ++ join_names (parts p) with
  | [] => u "."
  | c :: s => c :: s
  end.

End Path.

(* ================================================================= *)
(** ** scripts/deepresearch_collector.py *)

Module DeepResearchCollector.

Record t := {
  api_key : option str;
  base_url : str;
  output_dir : Path.t;
  prefectures : list str
}.

Definition PREFECTURES : list str := map u [
  "北海道"; "青森県"; "岩手県"; "宮城県"; "秋田県"; "山形県"; "福島県";
  "茨城県"; "栃木県"; "群馬県"; "埼玉県"; "千葉県"; "東京都"; "神奈川県";
  "新潟県"; "富山県"; "石川県"; "福井県"; "山梨県"; "長野県"; "岐阜県";
  "静岡県"; "愛知県"; "三重県"; "滋賀県"; "京都府"; "大阪府"; "兵庫県";
  "奈良県"; "和歌山県"; "鳥取県"; "島根県"; "岡山県"; "広島県"; "山口県";
  "徳島県"; "香川県"; "愛媛県"; "高知県"; "福岡県"; "佐賀県"; "長崎県";
  "熊本県"; "大分県"; "宮崎県"; "鹿児島県"; "沖縄県"
]%string.

Definition school_types : list str := [u "県立"; u "私立"; u "国立"].

(** [prefecture.replace('県', '').replace('都', '').replace('府', '')], the
    expression that both the school names and the file names start from *)
Definition strip_suffixes (prefecture : str) : str :=
  replace (replace (replace prefecture (u "県") []) (u "都") []) (u "府") [].

(** [school_types[i % 3]] *)
Definition school_type (i : Z) : str := nth (Z.to_nat (i mod 3)) school_types [].

(** the [school_name] of the record at index [i] *)
Definition school_name (prefecture : str) (i : Z) : str :=
  strip_suffixes prefecture ++ school_type i ++ chr (65 + i) ++ u "高等学校".

(** [str(dir / name)], the text that [open] and the log get *)
Definition path_join (dir : Path.t) (name : str) : str :=
  Path.to_str (Path.joinpath dir name).

Section WithEnv.
Variable E : Env.

(** [__init__] *)
Definition init : M t :=
  let api_key := getenv E (u "DEEPRESEARCH_API_KEY") in
  let base_url :=
    match getenv E (u "DEEPRESEARCH_BASE_URL") with
    | Some s => s
    | None => u "https://api.deepresearch.com/v1"
    end in
  let output_dir := Path.of_str (u "db/schools") in
  match mkdir E (Path.to_str output_dir) with
  | Some e => raise e
  | None => ret {| api_key := api_key; base_url := base_url;
                   output_dir := output_dir; prefectures := PREFECTURES |}
  end.

(** the [school_data] literal of [_generate_placeholder_data], given the
    clock reading that goes into it *)
Definition school_record (prefecture : str) (i : Z) (last_updated : str) : pyval :=
  let school_name := school_name prefecture i in
  PDict [
    (u "name", PStr school_name);
    (u "prefecture", PStr prefecture);
    (u "type", PStr (school_type i));
    (u "hensachi", PInt (50 + (i * 5) + (hash E school_name mod 20)));
    (u "philosophy", PStr (school_name ++
       u "は、生徒一人ひとりの個性を大切にし、確かな学力と豊かな人間性を育む教育を実践しています。"));
    (u "academic_records", PDict [
       (u "university_advancement_rate", PInt (85 + (i * 2)));
       (u "notable_universities",
          PList [PStr (u "東京大学"); PStr (u "早稲田大学");
                 PStr (u "慶應義塾大学"); PStr (u "明治大学")]);
       (u "recent_achievements", PStr (
          u "令和" ++ Str.of_int (4 + i) ++ u "年度大学合格実績: 国公立大学" ++
          Str.of_int (20 + i * 3) ++ u "名、私立大学" ++ Str.of_int (50 + i * 10) ++ u "名"))
    ]);
    (u "entrance_exam_info", PDict [
       (u "exam_date", PStr (
          u "令和6年" ++ Str.of_int (2 + i) ++ u "月" ++ Str.of_int (10 + i) ++ u "日"));
       (u "subjects",
          PList [PStr (u "国語"); PStr (u "数学"); PStr (u "英語");
                 PStr (u "理科"); PStr (u "社会")]);
       (u "application_period", PStr (
          u "令和5年12月" ++ Str.of_int (1 + i) ++ u "日～12月" ++ Str.of_int (15 + i) ++ u "日"));
       (u "capacity", PInt (200 + (i * 40)))
    ]);
    (u "open_campus", PDict [
       (u "dates", PList [
          PStr (u "令和5年" ++ Str.of_int (7 + i) ++ u "月" ++ Str.of_int (15 + i * 2) ++ u "日");
          PStr (u "令和5年" ++ Str.of_int (8 + i) ++ u "月" ++ Str.of_int (20 + i * 3) ++ u "日")]);
       (u "programs",
          PList [PStr (u "学校説明会"); PStr (u "授業体験");
                 PStr (u "部活動見学"); PStr (u "個別相談")]);
       (u "registration_required", PBool true)
    ]);
    (u "official_images", PList [
       PStr (u "https://example.com/schools/" ++ prefecture ++ u "/" ++ school_name ++ u "/main.jpg");
       PStr (u "https://example.com/schools/" ++ prefecture ++ u "/" ++ school_name ++ u "/campus.jpg");
       PStr (u "https://example.com/schools/" ++ prefecture ++ u "/" ++ school_name ++ u "/facilities.jpg")]);
    (u "contact_info", PDict [
       (u "address", PStr (prefecture ++ u "○○市○○町1-2-3"));
       (u "phone", PStr (
          u "0" ++ Str.of_int (3 + i) ++ u "-" ++ Str.of_int (1000 + i * 100) ++
          u "-" ++ Str.of_int (2000 + i * 200)));
       (u "website", PStr (
          u "https://www." ++ replace school_name (u "高等学校") [] ++ u ".ed.jp"));
       (u "email", PStr (
          u "info@" ++ replace school_name (u "高等学校") [] ++ u ".ed.jp"))
    ]);
    (u "last_updated", PStr last_updated)
  ].

(** one pass of the loop of [_generate_placeholder_data] *)
Definition school_data (prefecture : str) (i : Z) : M pyval :=
  last_updated <- now_isoformat E ;;
  ret (school_record prefecture i last_updated).

(** [range(5)] *)
Definition range5 : list Z := [0; 1; 2; 3; 4].

Definition _generate_placeholder_data (self : t) (params : pyval) : M pyval :=
  prefecture <- lift (py_get params (u "prefecture") (PStr (u "東京都"))) ;;
  match prefecture with
  | PStr prefecture =>
      schools <- mapM (school_data prefecture) range5 ;;
      collection_date <- now_isoformat E ;;
      ret (PDict [
        (u "prefecture", PStr prefecture);
        (u "total_schools", PInt (Z.of_nat (List.length schools)));
        (u "schools", PList schools);
        (u "collection_date", PStr collection_date);
        (u "data_source",
           PStr (if negb (truthy_opt (api_key self))
                 then u "placeholder" else u "deepresearch_api"))
      ])
  | _ => raise (mk_exn AttributeError
                  (u "'" ++ type_name prefecture ++ u "' object has no attribute 'replace'"))
  end.

(** the [headers] literal of [_make_api_request] *)
Definition request_headers (self : t) : list (str * str) := [
  (u "Authorization",
     u "Bearer " ++ match api_key self with Some k => k | None => u "None" end);
  (u "Content-Type", u "application/json")].

Definition _make_api_request (self : t) (endpoint : str) (params : pyval) : M pyval :=
  if negb (truthy_opt (api_key self)) then
    logger WARNING (u "DeepResearch API key not found. Using placeholder data.") ;;;
    _generate_placeholder_data self params
  else
    try_except
      (let headers := request_headers self in
       response <- get E (base_url self ++ u "/" ++ endpoint) headers params 30 ;;
       raise_for_status response ;;;
       json response)
      is_RequestException
      (fun e =>
         logger ERROR (u "API request failed: " ++ exn_msg e) ;;;
         ret PNone).

Definition search_params (prefecture : str) : pyval :=
  PDict [
    (u "prefecture", PStr prefecture);
    (u "school_type", PStr (u "high_school"));
    (u "include_details", PBool true)
  ].

Definition collect_prefecture_data (self : t) (prefecture : str) : M pyval :=
  logger INFO (u "Collecting data for " ++ prefecture ++ u "...") ;;;
  let params := search_params prefecture in
  data <- _make_api_request self (u "schools/search") params ;;
  (if truthy data then
     total_schools <- lift (py_get data (u "total_schools") (PInt 0)) ;;
     logger INFO (u "Successfully collected data for " ++ prefecture ++ u ": " ++
                  fmt E total_schools ++ u " schools")
   else
     logger ERROR (u "Failed to collect data for " ++ prefecture)) ;;;
  ret data.

Definition save_prefecture_data (self : t) (prefecture : str) (data : pyval) : M bool :=
  try_except
    (let filename := strip_suffixes prefecture ++ u "_schools.json" in
     let filepath := path_join (output_dir self) filename in
     dump_json E filepath data ;;;
     logger INFO (u "Saved data for " ++ prefecture ++ u " to " ++ filepath) ;;;
     ret true)
    any_Exception
    (fun e =>
       logger ERROR (u "Failed to save data for " ++ prefecture ++ u ": " ++ exn_msg e) ;;;
       ret false).

(** the body of the loop of [collect_all_prefectures]; nothing after the
    assignment to [results[prefecture]] can fail, so the handler starts
    from the mapping as it was before the pass *)
Definition process_prefecture (self : t) (total_prefectures : Z)
    (results : list (str * bool)) (ip : Z * str) : M (list (str * bool)) :=
  let '(i, prefecture) := ip in
  logger INFO (u "Processing " ++ prefecture ++ u " (" ++ Str.of_int i ++ u "/" ++
               Str.of_int total_prefectures ++ u ")") ;;;
  try_except
    (data <- collect_prefecture_data self prefecture ;;
     results' <-
       (if truthy data then
          success <- save_prefecture_data self prefecture data ;;
          ret (dict_set results prefecture success)
        else
          ret (dict_set results prefecture false)) ;;
     (if i <? total_prefectures then sleep 1 else ret tt) ;;;
     ret results')
    any_Exception
    (fun e =>
       logger ERROR (u "Error processing " ++ prefecture ++ u ": " ++ exn_msg e) ;;;
       ret (dict_set results prefecture false)).

Definition collect_all_prefectures (self : t) : M (list (str * bool)) :=
  let results := [] in
  let total_prefectures := Z.of_nat (List.length (prefectures self)) in
  logger INFO (u "Starting data collection for " ++ Str.of_int total_prefectures ++
               u " prefectures...") ;;;
  foldM (process_prefecture self total_prefectures) results
        (enumerate (prefectures self) 1).

(** [sum(1 for success in results.values() if success)] *)
Definition count_successful (results : list (str * bool)) : Z :=
  Z.of_nat (List.length (filter (fun success : bool => success) (values results))).

(** the [summary] literal of [generate_summary_report], given the clock
    reading and the quotient [successful/total] that go into it *)
Definition summary_dict (self : t) (results : list (str * bool))
    (collection_date : str) (rate : Float.float) : pyval :=
  let successful := count_successful results in
  let total := len results in
  PDict [
    (u "collection_date", PStr collection_date);
    (u "total_prefectures", PInt total);
    (u "successful_collections", PInt successful);
    (u "failed_collections", PInt (total - successful));
    (u "success_rate",
       PStr (Float.format_1f (Float.mul rate (Float.of_int 100)) ++ u "%"));
    (u "results",
       PDict (map (fun kv : str * bool => (fst kv, PBool (snd kv))) results));
    (u "output_directory", PStr (Path.to_str (output_dir self)));
    (u "api_status",
       PStr (if truthy_opt (api_key self) then u "connected" else u "placeholder_mode"))
  ].

(** building [summary]: the division in [success_rate] is what can fail *)
Definition build_summary (self : t) (results : list (str * bool))
    (collection_date : str) : result pyval :=
  match Float.int_truediv (count_successful results) (len results) with
  | Raise e => Raise e
  | Ok rate => Ok (summary_dict self results collection_date rate)
  end.

Definition generate_summary_report (self : t) (results : list (str * bool)) : M unit :=
  let successful := count_successful results in
  let total := len results in
  collection_date <- now_isoformat E ;;
  summary <- lift (build_summary self results collection_date) ;;
  let summary_path := path_join (output_dir self) (u "collection_summary.json") in
  dump_json E summary_path summary ;;;
  logger INFO (u "Collection Summary:") ;;;
  logger INFO (u "  Total prefectures: " ++ Str.of_int total) ;;;
  logger INFO (u "  Successful: " ++ Str.of_int successful) ;;;
  logger INFO (u "  Failed: " ++ Str.of_int (total - successful)) ;;;
  success_rate <- lift (py_item E summary (u "success_rate")) ;;
  logger INFO (u "  Success rate: " ++ fmt E success_rate) ;;;
  logger INFO (u "  Summary saved to: " ++ summary_path).

(** [main] *)
Definition main : M (list (str * bool)) :=
  logger INFO (u "Starting DeepResearch School Data Collection") ;;;
  collector <- init ;;
  (if negb (truthy_opt (api_key collector)) then
     logger WARNING (u "DEEPRESEARCH_API_KEY environment variable not set.") ;;;
     logger WARNING (u "Running in placeholder mode - generating sample data.")
   else ret tt) ;;;
  results <- collect_all_prefectures collector ;;
  generate_summary_report collector results ;;;
  logger INFO (u "Data collection completed!") ;;;
  ret results.

End WithEnv.

End DeepResearchCollector.

(* ================================================================= *)
(** ** scripts/slack_notifier.py *)

Module SlackNotifier.

Record t := {
  webhook_url : option str;
  channel : str;
  bot_name : str;
  bot_icon : str
}.

(** an [int] or [bool] operand as an integer *)
Definition as_int (v : pyval) : option Z :=
  match v with
  | PInt z => Some z
  | PBool b => Some (if b then 1 else 0)
  | _ => None
  end.

(** [v == 0] *)
Definition py_eq_zero (v : pyval) : bool :=
  match v with
  | PInt z => z =? 0
  | PBool b => negb b
  | PFloat (S754_zero _) => true
  | _ => false
  end.

(** the text of the [TypeError] of [v / 2] *)
Definition unsupported_div (v : pyval) : str :=
  u "unsupported operand type(s) for /: '" ++ type_name v ++ u "' and 'int'".

(** the text of the [TypeError] of [v < x] for a float [x] *)
Definition unsupported_lt (v : pyval) : str :=
  u "'<' not supported between instances of '" ++ type_name v ++ u "' and 'float'".

(** [v / 2] *)
Definition py_half (v : pyval) : result Float.float :=
  match v with
  | PInt _ | PBool _ =>
      match as_int v with
      | Some z => Float.int_truediv z 2
      | None => Raise (mk_exn TypeError (unsupported_div v))
      end
  | PFloat x => Ok (Float.div x (Float.of_int 2))
  | _ => Raise (mk_exn TypeError (unsupported_div v))
  end.

(** [v < x] for a float [x] *)
Definition py_lt_float (v : pyval) (x : Float.float) : result bool :=
  match v with
  | PInt _ | PBool _ =>
      match as_int v with
      | Some z => Ok (Float.int_ltb z x)
      | None => Raise (mk_exn TypeError (unsupported_lt v))
      end
  | PFloat y => Ok (SFltb y x)
  | _ => Raise (mk_exn TypeError (unsupported_lt v))
  end.

(** ["success" if failed == 0 else "warning"
     if failed < total_prefectures / 2 else "error"] *)
Definition completion_status (failed total_prefectures : pyval) : result str :=
  if py_eq_zero failed then Ok (u "success")
  else
    match py_half total_prefectures with
    | Raise e => Raise e
    | Ok half =>
        match py_lt_float failed half with
        | Raise e => Raise e
        | Ok true => Ok (u "warning")
        | Ok false => Ok (u "error")
        end
    end.

(** ["good" if status == "success" else "warning"
     if status == "warning" else "danger"] *)
Definition completion_color (status : str) : str :=
  if Str.eqb status (u "success") then u "good"
  else if Str.eqb status (u "warning") then u "warning"
  else u "danger".

Section WithEnv.
Variable E : Env.

(** [__init__] *)
Definition init : M t :=
  let webhook_url := getenv E (u "SLACK_WEBHOOK_URL") in
  let or_default (name : string) (default : string) : str :=
    match getenv E (u name) with Some s => s | None => u default end in
  let self := {|
    webhook_url := webhook_url;
    channel := or_default "SLACK_CHANNEL"%string "#devin-task-devin関連の依頼と進捗"%string;
    bot_name := or_default "SLACK_BOT_NAME"%string "Education Salon Bot"%string;
    bot_icon := or_default "SLACK_BOT_ICON"%string ":robot_face:"%string |} in
  (if negb (truthy_opt webhook_url) then
     logger WARNING
       (u "SLACK_WEBHOOK_URL environment variable not set. Notifications will be logged only.")
   else ret tt) ;;;
  ret self.

(** the [payload] literal of [_send_slack_message] *)
Definition slack_payload (self : t) (message : str) (color : str)
    (ts : Float.float) : pyval :=
  PDict [
    (u "channel", PStr (channel self));
    (u "username", PStr (bot_name self));
    (u "icon_emoji", PStr (bot_icon self));
    (u "attachments", PList [
       PDict [
         (u "color", PStr color);
         (u "text", PStr message);
         (u "ts", PFloat ts)
       ]
    ])
  ].

Definition _send_slack_message (self : t) (message : str) (color : str) : M bool :=
  if negb (truthy_opt (webhook_url self)) then
    logger INFO (u "[SLACK NOTIFICATION] " ++ message) ;;;
    ret true
  else
    try_except
      (ts <- now_timestamp E ;;
       let payload := slack_payload self message color ts in
       response <- post E (match webhook_url self with Some s => s | None => [] end)
                        payload 10 ;;
       raise_for_status response ;;;
       logger INFO (u "Slack notification sent successfully: " ++
                    slice_to 100 message ++ u "...") ;;;
       ret true)
      is_RequestException
      (fun e =>
         logger ERROR (u "Failed to send Slack notification: " ++ exn_msg e) ;;;
         ret false).

(** the text of the collection-completion message *)
Definition completion_message (status : str)
    (total_prefectures successful failed success_rate
     collection_date api_status : pyval) : str :=
  u "[Devin Update] Task: DeepResearch Data Collection | Status: " ++ status ++
    u " | Details:" ++ nl ++
  nl ++
  u "🏫 **School Data Collection Completed**" ++ nl ++
  u "• **Total Prefectures**: " ++ fmt E total_prefectures ++ nl ++
  u "• **Successful**: " ++ fmt E successful ++ nl ++
  u "• **Failed**: " ++ fmt E failed ++ nl ++
  u "• **Success Rate**: " ++ fmt E success_rate ++ nl ++
  u "• **Collection Time**: " ++ fmt E collection_date ++ nl ++
  u "• **Data Source**: " ++ fmt E api_status ++ nl ++
  nl ++
  u "📊 **Summary**: Collected school data for all Japanese prefectures including 偏差値, 学是, 進学実績, 入試情報, オープンキャンパス情報, and 公式画像URL." ++ nl ++
  nl ++
  u "📁 Data saved to: `db/schools/` directory".

Definition notify_deepresearch_completion (self : t) (results : pyval) : M bool :=
  success_rate <- lift (py_get results (u "success_rate") (PStr (u "0%"))) ;;
  total_prefectures <- lift (py_get results (u "total_prefectures") (PInt 0)) ;;
  successful <- lift (py_get results (u "successful_collections") (PInt 0)) ;;
  failed <- lift (py_get results (u "failed_collections") (PInt 0)) ;;
  status <- lift (completion_status failed total_prefectures) ;;
  let color := completion_color status in
  collection_date <- lift (py_get results (u "collection_date") (PStr (u "Unknown"))) ;;
  api_status <- lift (py_get results (u "api_status") (PStr (u "Unknown"))) ;;
  let message := completion_message status total_prefectures successful failed
                   success_rate collection_date api_status in
  _send_slack_message self message color.

End WithEnv.

End SlackNotifier.

(* ================================================================= *)
(** * The rest of scripts/slack_notifier.py *)

(** ** Text helpers *)

Module Text.

(** [ch.isspace()] *)
Definition is_space (c : N) : bool :=
  ((0x09 <=? c) && (c <=? 0x0D) || (0x1C <=? c) && (c <=? 0x20) ||
   (c =? 0x85) || (c =? 0xA0) || (c =? 0x1680) ||
   (0x2000 <=? c) && (c <=? 0x200A) || (c =? 0x2028) || (c =? 0x2029) ||
   (c =? 0x202F) || (c =? 0x205F) || (c =? 0x3000))%N.

(** [s.lstrip()] *)
Fixpoint lstrip (s : str) : str :=
  match s with
  | [] => []
  | c :: t => if is_space c then lstrip t else s
  end.

(** [s.rstrip()] *)
Definition rstrip (s : str) : str := rev (lstrip (rev s)).

(** [s.strip()] *)
Definition strip (s : str) : str := rstrip (lstrip s).

Definition is_ascii (c : N) : bool := (c <? 0x80)%N.
Definition is_upper (c : N) : bool := ((0x41 <=? c) && (c <=? 0x5A))%N.
Definition is_lower (c : N) : bool := ((0x61 <=? c) && (c <=? 0x7A))%N.
Definition to_upper (c : N) : N := if is_lower c then (c - 0x20)%N else c.
Definition to_lower (c : N) : N := if is_upper c then (c + 0x20)%N else c.

(** [s.title()] on ASCII text: a letter after a letter is lowered, any
    other letter is raised *)
Fixpoint title_from (previous_is_cased : bool) (s : str) : str :=
  match s with
  | [] => []
  | c :: t =>
      (if previous_is_cased then to_lower c else to_upper c)
        :: title_from (is_upper c || is_lower c) t
  end.

(** [s[:n] + ('...' if len(s) > n else '')] *)
Definition excerpt (n : nat) (s : str) : str :=
  slice_to n s ++ (if (n <? List.length s)%nat then u "..." else []).

(** [o or default] for an optional string *)
Definition or_else (o : option str) (default : str) : str :=
  match o with
  | Some (c :: s) => c :: s
  | _ => default
  end.

End Text.

(** ** More of the outside world *)

(** What the notifier asks besides [Env]: the formatted clock, [str.title]
    beyond ASCII, a failure of opening or reading a file (by file-system
    call number), what [json.load] makes of the text that a broken write of
    a document has left, and the output of a [git] command. *)
Record Host := {
  strftime : nat -> str -> str;
  title : str -> str;
  read_error : nat -> str -> option exn;
  load_partial : nat -> str -> pyval -> result pyval;
  check_output : list str -> result str
}.

Section HostEffects.
Variable E : Env.
Variable H : Host.

(** [datetime.now().strftime(fmt)] *)
Definition now_strftime (fmt : str) : M str :=
  fun w => (Ok (strftime H (clock w) fmt),
            {| clock := S (clock w); http_calls := http_calls w;
               fs_calls := fs_calls w; files := files w;
               log := log w; slept := slept w |}).

(** [s.title()] *)
Definition py_title (s : str) : str :=
  if forallb Text.is_ascii s then Text.title_from false s else title H s.

(** [path.exists()] *)
Definition path_exists (path : str) : M bool :=
  fun w => (Ok (match dict_lookup (files w) path with Some _ => true | None => false end), w).

(** [with open(path, 'r', encoding='utf-8') as f: json.load(f)] *)
Definition load_json (path : str) : M pyval :=
  fun w =>
    let w' := {| clock := clock w; http_calls := http_calls w;
                 fs_calls := S (fs_calls w); files := files w;
                 log := log w; slept := slept w |} in
    match read_error H (fs_calls w) path with
    | Some e => (Raise e, w')
    | None =>
        match dict_lookup (files w) path with
        | Some (Document document) => (Ok document, w')
        | Some (Partial document) => (load_partial H (fs_calls w) path document, w')
        | None =>
            (Raise (mk_exn OSError
                      (u "[Errno 2] No such file or directory: " ++ repr E (PStr path))), w')
        end
    end.

(** [subprocess.check_output(args, cwd=Path.cwd(), text=True).strip()] *)
Definition check_output_strip (args : list str) : M str :=
  lift (match check_output H args with
        | Ok out => Ok (Text.strip out)
        | Raise e => Raise e
        end).

End HostEffects.

(** ** The remaining notifications, the loaders and [main] *)

Module Notifier.

Definition time_format : str := u "%Y-%m-%d %H:%M:%S UTC".

Section WithEnv.
Variable E : Env.
Variable H : Host.

Definition notify_commit (self : SlackNotifier.t)
    (commit_hash commit_message author branch : str) : M bool :=
  time <- now_strftime H time_format ;;
  let message :=
    u "[Devin Update] Task: New Commit | Status: success | Details: " ++ nl ++
    u "        " ++ nl ++
    u "📝 **New Commit Pushed**" ++ nl ++
    u "• **Repository**: education-salon" ++ nl ++
    u "• **Branch**: " ++ branch ++ nl ++
    u "• **Commit**: `" ++ slice_to 8 commit_hash ++ u "`" ++ nl ++
    u "• **Author**: " ++ author ++ nl ++
    u "• **Message**: " ++ Text.excerpt 100 commit_message ++ nl ++
    u "• **Time**: " ++ time ++ nl ++
    nl ++
    u "🔗 View commit: https://github.com/ai-being-jp/education-salon/commit/" ++
      commit_hash in
  SlackNotifier._send_slack_message E self message (u "good").

Definition notify_error (self : SlackNotifier.t)
    (error_type error_message context : str) : M bool :=
  time <- now_strftime H time_format ;;
  let message :=
    u "[Devin Update] Task: " ++ error_type ++ u " | Status: error | Details:" ++ nl ++
    nl ++
    u "❌ **Error Occurred**" ++ nl ++
    u "• **Type**: " ++ error_type ++ nl ++
    u "• **Context**: " ++ context ++ nl ++
    u "• **Error**: " ++ Text.excerpt 200 error_message ++ nl ++
    u "• **Time**: " ++ time ++ nl ++
    nl ++
    u "🔧 **Action Required**: Please check logs and investigate the issue." in
  SlackNotifier._send_slack_message E self message (u "danger").

(** ["good" if status == "success" else "danger" if status == "failed"
     else "warning"] *)
Definition build_color (status : str) : str :=
  if Str.eqb status (u "success") then u "good"
  else if Str.eqb status (u "failed") then u "danger"
  else u "warning".

Definition build_emoji (status : str) : str :=
  if Str.eqb status (u "success") then u "✅"
  else if Str.eqb status (u "failed") then u "❌"
  else u "⚠️".

Definition notify_build_status (self : SlackNotifier.t)
    (status details build_url : str) : M bool :=
  let color := build_color status in
  let emoji := build_emoji status in
  time <- now_strftime H time_format ;;
  let message :=
    u "[Devin Update] Task: Site Build | Status: " ++ status ++ u " | Details:" ++ nl ++
    nl ++
    emoji ++ u " **Build " ++ py_title H status ++ u "**" ++ nl ++
    u "• **Status**: " ++ status ++ nl ++
    u "• **Details**: " ++ details ++ nl ++
    u "• **Time**: " ++ time in
  let message :=
    match build_url with
    | [] => message
    | _ :: _ => message ++ nl ++ u "🔗 **Build URL**: " ++ build_url
    end in
  SlackNotifier._send_slack_message E self message color.

(** ["good" if status == "success" else "danger"] *)
Definition deployment_color (status : str) : str :=
  if Str.eqb status (u "success") then u "good" else u "danger".

Definition deployment_emoji (status : str) : str :=
  if Str.eqb status (u "success") then u "🚀" else u "💥".

Definition notify_deployment (self : SlackNotifier.t)
    (environment status url : str) : M bool :=
  let color := deployment_color status in
  let emoji := deployment_emoji status in
  time <- now_strftime H time_format ;;
  let message :=
    u "[Devin Update] Task: Deployment | Status: " ++ status ++ u " | Details:" ++ nl ++
    nl ++
    emoji ++ u " **Deployment " ++ py_title H status ++ u "**" ++ nl ++
    u "• **Environment**: " ++ environment ++ nl ++
    u "• **Status**: " ++ status ++ nl ++
    u "• **Time**: " ++ time in
  let message :=
    match url with
    | [] => message
    | _ :: _ => message ++ nl ++ u "🌐 **Live URL**: " ++ url
    end in
  SlackNotifier._send_slack_message E self message color.

Definition test_connection (self : SlackNotifier.t) : M bool :=
  time <- now_strftime H time_format ;;
  let message :=
    u "[Devin Update] Task: Slack Connection Test | Status: success | Details:" ++ nl ++
    nl ++
    u "🔔 **Slack Notification System Active**" ++ nl ++
    u "• **Channel**: " ++ SlackNotifier.channel self ++ nl ++
    u "• **Bot Name**: " ++ SlackNotifier.bot_name self ++ nl ++
    u "• **Test Time**: " ++ time ++ nl ++
    nl ++
    u "✅ Notifications are working correctly for Education Salon project." in
  SlackNotifier._send_slack_message E self message (u "good").

Definition summary_file : str := u "db/schools/collection_summary.json".

Definition load_collection_results : M pyval :=
  try_except
    (let results_path := summary_file in
     found <- path_exists results_path ;;
     if found then load_json E H results_path else ret PNone)
    any_Exception
    (fun e =>
       logger ERROR (u "Failed to load collection results: " ++ exn_msg e) ;;;
       ret PNone).

(** the dictionary returned when [git] cannot be asked *)
Definition unknown_commit : list (str * str) := [
  (u "hash", u "unknown");
  (u "message", u "Unknown commit");
  (u "author", u "Unknown");
  (u "branch", u "unknown")
].

Definition get_latest_commit_info : M (list (str * str)) :=
  try_except
    (commit_hash <- check_output_strip H [u "git"; u "rev-parse"; u "HEAD"] ;;
     commit_message <- check_output_strip H [u "git"; u "log"; u "-1"; u "--pretty=%s"] ;;
     author <- check_output_strip H [u "git"; u "log"; u "-1"; u "--pretty=%an"] ;;
     branch <- check_output_strip H [u "git"; u "rev-parse"; u "--abbrev-ref"; u "HEAD"] ;;
     ret [(u "hash", commit_hash);
          (u "message", commit_message);
          (u "author", author);
          (u "branch", branch)])
    any_Exception
    (fun e =>
       logger ERROR (u "Failed to get commit info: " ++ exn_msg e) ;;;
       ret unknown_commit).

(** [d[k]] on a dictionary of strings *)
Definition item (d : list (str * str)) (k : str) : M str :=
  match dict_lookup d k with
  | Some v => ret v
  | None => raise (mk_exn KeyError (repr E (PStr k)))
  end.

(** the arguments as [argparse] hands them over: [--type] and [--status]
    are restricted to their choices *)
Inductive notification_type :=
| type_commit | type_deepresearch | type_error | type_build | type_deploy | type_test.

Inductive status_choice := status_success | status_failed | status_warning.

Definition status_str (s : status_choice) : str :=
  match s with
  | status_success => u "success"
  | status_failed => u "failed"
  | status_warning => u "warning"
  end.

Record Args := {
  arg_type : notification_type;
  arg_message : option str;
  arg_status : status_choice;
  arg_url : option str;
  arg_environment : str
}.

(** [main], from the parsed arguments on; the result is the exit code *)
Definition main (args : Args) : M Z :=
  notifier <- SlackNotifier.init E ;;
  success <-
    match arg_type args with
    | type_test => test_connection notifier
    | type_commit =>
        commit_info <- get_latest_commit_info ;;
        commit_hash <- item commit_info (u "hash") ;;
        commit_message <- item commit_info (u "message") ;;
        author <- item commit_info (u "author") ;;
        branch <- item commit_info (u "branch") ;;
        notify_commit notifier commit_hash commit_message author branch
    | type_deepresearch =>
        results <- load_collection_results ;;
        if truthy results then
          SlackNotifier.notify_deepresearch_completion E notifier results
        else
          notify_error notifier
            (u "DeepResearch Data Collection")
            (u "Could not load collection results")
            (u "Collection summary file not found")
    | type_error =>
        notify_error notifier
          (u "Manual Error Report")
          (Text.or_else (arg_message args) (u "No error message provided"))
          (u "Manual notification")
    | type_build =>
        notify_build_status notifier
          (status_str (arg_status args))
          (Text.or_else (arg_message args) (u "Build " ++ status_str (arg_status args)))
          (Text.or_else (arg_url args) [])
    | type_deploy =>
        notify_deployment notifier
          (arg_environment args)
          (status_str (arg_status args))
          (Text.or_else (arg_url args) [])
    end ;;
  if success : bool then
    logger INFO (u "Notification sent successfully") ;;;
    ret 0
  else
    logger ERROR (u "Failed to send notification") ;;;
    ret 1.

End WithEnv.

End Notifier.

(* ================================================================= *)
(** * Definitions used in the statements *)

(** a field of a JSON object *)
Definition field (k : string) (v : pyval) : option pyval :=
  match v with
  | PDict d => dict_lookup d (u k)
  | _ => None
  end.

Definition ken : N := 0x770C.   (* 県 *)
Definition to : N := 0x90FD.    (* 都 *)
Definition fu : N := 0x5E9C.    (* 府 *)

Definition is_suffix_char (c : N) : bool :=
  (c =? ken)%N || (c =? to)%N || (c =? fu)%N.

(** the world after [n] more readings of the clock *)
Definition advance (n : nat) (w : World) : World :=
  {| clock := n + clock w; http_calls := http_calls w; fs_calls := fs_calls w;
     files := files w; log := log w; slept := slept w |}.


Section PlaceholderShape.
Import DeepResearchCollector.
Variable E : Env.

(** the five records, the first one made at clock reading [c] *)
Definition schools_at (prefecture : str) (c : nat) : list pyval :=
  [school_record E prefecture 0 (isoformat E c);
   school_record E prefecture 1 (isoformat E (1 + c));
   school_record E prefecture 2 (isoformat E (2 + c));
   school_record E prefecture 3 (isoformat E (3 + c));
   school_record E prefecture 4 (isoformat E (4 + c))].

Definition artifact_at (self : t) (prefecture : str) (c : nat) : pyval :=
  PDict [
    (u "prefecture", PStr prefecture);
    (u "total_schools", PInt 5);
    (u "schools", PList (schools_at prefecture c));
    (u "collection_date", PStr (isoformat E (5 + c)));
    (u "data_source",
       PStr (if negb (truthy_opt (api_key self)) then u "placeholder" else u "deepresearch_api"))
  ].
End PlaceholderShape.

(** the category tags and the scores of the records of an artifact *)
Definition tags_and_scores (r : result pyval) : option (list (option pyval * option pyval)) :=
  match r with
  | Ok artifact =>
      match field "schools" artifact with
      | Some (PList schools) =>
          Some (map (fun record => (field "type" record, field "hensachi" record)) schools)
      | _ => None
      end
  | Raise _ => None
  end.

(** the keys after [d[k] = v] *)
Definition add_key (ks : list str) (k : str) : list str :=
  if existsb (fun k' => Str.eqb k' k) ks then ks else ks ++ [k].


(** a boolean test for a duplicate-free list of strings *)
Fixpoint nodupb (l : list str) : bool :=
  match l with
  | [] => true
  | x :: l' => negb (existsb (fun y => Str.eqb y x) l') && nodupb l'
  end.


(** what entered [results] as [True] came from a fetch that returned a truthy
    value and a save that returned [True] *)
Definition collected (E : Env) (self : DeepResearchCollector.t) (prefecture : str) : Prop :=
  exists data w1 w2 w3,
    DeepResearchCollector.collect_prefecture_data E self prefecture w1 = (Ok data, w2) /\
    truthy data = true /\
    DeepResearchCollector.save_prefecture_data E self prefecture data w2 = (Ok true, w3).




(** a float that is zero or positive and finite, below [2^B] *)
Definition finite_nonneg (B : Z) (x : spec_float) : Prop :=
  match x with
  | S754_zero false => True
  | S754_finite false m e => exists D, 0 <= D /\ Zpos m < 2 ^ D /\ D + e <= B /\ e <= 971
  | _ => False
  end.

(** the tenths that [format_1f] prints for a float *)
Definition tenths_of (x : Float.float) : Z :=
  match x with
  | S754_finite _ m e => Float.tenths m e
  | _ => 0
  end.

(** the tenths of a percent in the [success_rate] that the code computes *)
Definition rate_tenths (successful total : Z) : Z :=
  match Float.int_truediv successful total with
  | Ok rate => tenths_of (Float.mul rate (Float.of_int 100))
  | Raise _ => -1
  end.

(** the success rate as the specification words it, [success/total*100] to
    one decimal, in tenths of a percent and over the rationals *)
Definition percent_tenths (successful total : Z) : Z :=
  Float.round_half_even (successful * 1000) total.

(** the number of [False] entries *)
Definition count_failed (results : list (str * bool)) : Z :=
  Z.of_nat (List.length (filter negb (values results))).

(** the code's rate agrees with [percent_tenths] for every count up to [total] *)
Definition rate_agrees (total : Z) : bool :=
  forallb (fun successful => rate_tenths successful total =? percent_tenths successful total)
          (map Z.of_nat (seq 0 (S (Z.to_nat total)))).

(** what a run of [main] leaves behind, in brief: the Regions and outcomes
    of the mapping, the number of files, and two fields of the summary *)
Definition run_digest (r : result (list (str * bool)) * World)
    : option (list str * list bool * nat * option pyval * option pyval) :=
  match r with
  | (Ok results, w) =>
      let summary := dict_lookup (files w) (u "db/schools/collection_summary.json") in
      Some (keys results, values results, List.length (files w),
            match summary with Some (Document d) => field "success_rate" d | _ => None end,
            match summary with Some (Document d) => field "api_status" d | _ => None end)
  | (Raise _, _) => None
  end.

(** ** Example worlds *)

Definition w0 : World :=
  {| clock := 0; http_calls := 0; fs_calls := 0; files := []; log := []; slept := [] |}.

(** no credential and no webhook; every write succeeds *)
Definition E_offline : Env := {|
  getenv := fun _ => None;
  hash := fun s => Z.of_nat (List.length s) * 7 - 100;
  repr := fun _ => u "?";
  isoformat := fun k => u "2025-01-01T00:00:" ++ Str.of_int (Z.of_nat k);
  timestamp := fun k => Float.of_int (Z.of_nat k);
  requests_get := fun _ _ _ _ _ => Raise (mk_exn ConnectionError (u "unreachable"));
  requests_post := fun _ _ _ _ => Raise (mk_exn ConnectionError (u "unreachable"));
  write_json := fun _ _ _ => None;
  file_opened := fun _ _ => true;
  mkdir := fun _ => None
|}.

(** a credential and a webhook, a network that times out and a disk that is
    full *)
Definition E_down : Env := {|
  getenv := fun _ => Some (u "configured");
  hash := fun s => Z.of_nat (List.length s);
  repr := fun _ => u "?";
  isoformat := fun k => u "2025-01-01T00:00:" ++ Str.of_int (Z.of_nat k);
  timestamp := fun k => Float.of_int (Z.of_nat k);
  requests_get := fun _ _ _ _ _ => Raise (mk_exn Timeout (u "timed out"));
  requests_post := fun _ _ _ _ => Raise (mk_exn Timeout (u "timed out"));
  write_json := fun _ _ _ => Some (mk_exn OSError (u "[Errno 28] No space left on device"));
  file_opened := fun _ _ => true;
  mkdir := fun _ => None
|}.



Definition collector_offline : DeepResearchCollector.t :=
  {| DeepResearchCollector.api_key := None;
     DeepResearchCollector.base_url := u "https://api.deepresearch.com/v1";
     DeepResearchCollector.output_dir := Path.of_str (u "db/schools");
     DeepResearchCollector.prefectures := DeepResearchCollector.PREFECTURES |}.

Definition collector_online : DeepResearchCollector.t :=
  {| DeepResearchCollector.api_key := Some (u "configured");
     DeepResearchCollector.base_url := u "https://api.deepresearch.com/v1";
     DeepResearchCollector.output_dir := Path.of_str (u "db/schools");
     DeepResearchCollector.prefectures := DeepResearchCollector.PREFECTURES |}.

(** a collector whose Region list is empty *)
Definition collector_empty : DeepResearchCollector.t :=
  {| DeepResearchCollector.api_key := None;
     DeepResearchCollector.base_url := u "https://api.deepresearch.com/v1";
     DeepResearchCollector.output_dir := Path.of_str (u "db/schools");
     DeepResearchCollector.prefectures := [] |}.

Definition notifier_offline : SlackNotifier.t :=
  {| SlackNotifier.webhook_url := None;
     SlackNotifier.channel := u "#devin-task-devin関連の依頼と進捗";
     SlackNotifier.bot_name := u "Education Salon Bot";
     SlackNotifier.bot_icon := u ":robot_face:" |}.

Definition notifier_online : SlackNotifier.t :=
  {| SlackNotifier.webhook_url := Some (u "https://hooks.slack.com/services/T/B/X");
     SlackNotifier.channel := u "#devin-task-devin関連の依頼と進捗";
     SlackNotifier.bot_name := u "Education Salon Bot";
     SlackNotifier.bot_icon := u ":robot_face:" |}.

(* ================================================================= *)
(** * Properties *)

(** ** Strings and literals *)

Lemma eqb_eq a b : Str.eqb a b = true <-> a = b.
Proof.
  revert b. induction a as [|x a IH]; intros [|y b]; cbn; try easy.
  rewrite andb_true_iff, N.eqb_eq, IH. split; [intros [-> ->] | intros [= -> ->]]; easy.
Qed.

Lemma eqb_refl a : Str.eqb a a = true.
Proof. now apply eqb_eq. Qed.

Lemma eqb_neq a b : a <> b -> Str.eqb a b = false.
Proof. intros H. destruct (Str.eqb a b) eqn:Hab; [now apply eqb_eq in Hab | easy]. Qed.

Example u_tokyo : u "東京都" = [0x6771; 0x4EAC; 0x90FD]%N.
Proof. reflexivity. Qed.

Example of_int_ex :
  Str.of_int 1200 = u "1200" /\ Str.of_int 0 = u "0" /\ Str.of_int (-7) = u "-7".
Proof. repeat split; reflexivity. Qed.

Example replace_ex :
  replace (u "abcabc") (u "bc") (u "X") = u "aXaX" /\
  replace (u "aaa") (u "aa") (u "b") = u "ba" /\
  replace (u "ab") [] (u "-") = u "-a-b-".
Proof. repeat split; reflexivity. Qed.

Example int_truediv_ex :
  Float.int_truediv 1 2 = Ok (S754_finite false 4503599627370496 (-53)) /\
  Float.format_1f (S754_finite false 4503599627370496 (-53)) = u "0.5" /\
  Float.of_int 100 = S754_finite false 7036874417766400 (-46).
Proof. repeat split; vm_compute; reflexivity. Qed.

(** ** Region-name normalisation *)

Lemma replace_char_filter (c : N) (s : str) :
  replace s [c] [] = filter (fun x => negb (x =? c)%N) s.
Proof.
  unfold replace. induction s as [|a s IH]; [reflexivity|].
  cbn [replace_from is_prefix filter List.length Nat.sub app].
  rewrite andb_true_r, N.eqb_sym.
  destruct (a =? c)%N; cbn [negb]; now rewrite IH.
Qed.

Lemma filter_filter {A} (f g : A -> bool) (l : list A) :
  filter f (filter g l) = filter (fun x => g x && f x) l.
Proof.
  induction l as [|a l IH]; [reflexivity|].
  cbn [filter]. destruct (g a); cbn [filter andb]; now rewrite IH.
Qed.

Lemma strip_suffixes_filter (prefecture : str) :
  DeepResearchCollector.strip_suffixes prefecture
  = filter (fun c => negb (is_suffix_char c)) prefecture.
Proof.
  unfold DeepResearchCollector.strip_suffixes.
  change (u "県") with [ken]. change (u "都") with [to]. change (u "府") with [fu].
  rewrite !replace_char_filter, !filter_filter.
  apply filter_ext. intros c. unfold is_suffix_char.
  now destruct (c =? ken)%N, (c =? to)%N, (c =? fu)%N.
Qed.

(** ** The placeholder synthesizer *)

Section PlaceholderFacts.
Import DeepResearchCollector.
Variable E : Env.

Lemma py_get_prefecture (prefecture : str) (default : pyval) :
  py_get (search_params prefecture) (u "prefecture") default = Ok (PStr prefecture).
Proof.
  unfold py_get, search_params. cbn [dict_lookup]. now rewrite eqb_refl.
Qed.

Lemma generate_run (self : t) (prefecture : str) (w : World) :
  _generate_placeholder_data E self (search_params prefecture) w
  = (Ok (artifact_at E self prefecture (clock w)), advance 6 w).
Proof.
  unfold _generate_placeholder_data.
  unfold bind at 1. unfold lift at 1. rewrite py_get_prefecture.
  reflexivity.
Qed.

Lemma record_name prefecture i ts :
  field "name" (school_record E prefecture i ts) = Some (PStr (school_name prefecture i)).
Proof. reflexivity. Qed.

Lemma record_type prefecture i ts :
  field "type" (school_record E prefecture i ts) = Some (PStr (school_type i)).
Proof. reflexivity. Qed.

Lemma record_hensachi prefecture i ts :
  field "hensachi" (school_record E prefecture i ts)
  = Some (PInt (50 + (i * 5) + (hash E (school_name prefecture i) mod 20))).
Proof. reflexivity. Qed.

Lemma artifact_schools self prefecture c :
  field "schools" (artifact_at E self prefecture c)
  = Some (PList (schools_at E prefecture c)).
Proof. reflexivity. Qed.

Lemma artifact_total self prefecture c :
  field "total_schools" (artifact_at E self prefecture c) = Some (PInt 5).
Proof. reflexivity. Qed.

Lemma artifact_source self prefecture c :
  field "data_source" (artifact_at E self prefecture c)
  = Some (PStr (if truthy_opt (api_key self) then u "deepresearch_api" else u "placeholder")).
Proof. unfold artifact_at. now destruct (truthy_opt _). Qed.

Lemma tags_and_scores_run self prefecture w :
  tags_and_scores (fst (_generate_placeholder_data E self (search_params prefecture) w))
  = Some (map (fun i => (Some (PStr (school_type i)),
                         Some (PInt (50 + (i * 5) + (hash E (school_name prefecture i) mod 20)))))
              range5).
Proof.
  rewrite generate_run. cbn [fst tags_and_scores]. rewrite artifact_schools.
  reflexivity.
Qed.

End PlaceholderFacts.

Import DeepResearchCollector.

(** C2. For every Region the placeholder synthesizer returns an artifact
    with exactly 5 records and [total_schools = 5]; its provenance tag is
    [placeholder] when no credential is configured; the category tag of the
    record at index [i] is the [(i mod 3)]-th of the three school types, so
    the tags run 県立, 私立, 国立, 県立, 私立; the name at index [i] is the
    normalised Region, the tag and the letter [chr(65 + i)], and for 東京都
    the first name starts 東京, 県立, A. *)
Theorem placeholder_five_records (E : Env) (self : t) (region : str) (w : World) :
  exists artifact schools w',
    _generate_placeholder_data E self (search_params region) w = (Ok artifact, w') /\
    field "schools" artifact = Some (PList schools) /\
    List.length schools = 5%nat /\
    field "total_schools" artifact = Some (PInt 5) /\
    field "data_source" artifact
      = Some (PStr (if truthy_opt (api_key self)
                    then u "deepresearch_api" else u "placeholder")) /\
    map (field "type") schools
      = map (fun i => Some (PStr (nth (Z.to_nat (i mod 3)) school_types []))) [0; 1; 2; 3; 4] /\
    map (field "type") schools
      = map (fun tag => Some (PStr (u tag))) ["県立"; "私立"; "国立"; "県立"; "私立"]%string /\
    map (field "name") schools
      = map (fun i => Some (PStr (strip_suffixes region ++ school_type i ++
                                  chr (65 + i) ++ u "高等学校"))) [0; 1; 2; 3; 4] /\
    strip_suffixes (u "東京都") = u "東京" /\
    school_name (u "東京都") 0 = u "東京" ++ u "県立" ++ u "A" ++ u "高等学校".
Proof.
  exists (artifact_at E self region (clock w)), (schools_at E region (clock w)), (advance 6 w).
  split; [apply generate_run|].
  split; [apply artifact_schools|].
  split; [reflexivity|].
  split; [apply artifact_total|].
  split; [apply artifact_source|].
  repeat split; reflexivity.
Qed.

(** C3. Two runs of the placeholder synthesizer on the same Region in one
    process give the same category tags and the same scores at every index,
    whatever the clock, the log and the collector's fields are at each run:
    tag and score are a function of the Region, the index and the hash. *)
Theorem placeholder_deterministic (E : Env) (self1 self2 : t) (region : str)
    (w1 w2 : World) :
  tags_and_scores (fst (_generate_placeholder_data E self1 (search_params region) w1))
  = tags_and_scores (fst (_generate_placeholder_data E self2 (search_params region) w2)) /\
  tags_and_scores (fst (_generate_placeholder_data E self1 (search_params region) w1))
  = Some (map (fun i => (Some (PStr (school_type i)),
                         Some (PInt (50 + (i * 5) + (hash E (school_name region i) mod 20)))))
              range5).
Proof.
  split; [|apply tags_and_scores_run].
  now rewrite !tags_and_scores_run.
Qed.

(** C4. The score of the record at index [i] is
    [50 + i*5 + (hash(name) mod 20)] for that record's own name, an integer
    between [50 + 5*i] and [69 + 5*i]. *)
Theorem placeholder_score (E : Env) (self : t) (region : str) (w : World) :
  exists artifact schools w',
    _generate_placeholder_data E self (search_params region) w = (Ok artifact, w') /\
    field "schools" artifact = Some (PList schools) /\
    Forall2
      (fun i record =>
         exists name score,
           field "name" record = Some (PStr name) /\
           field "hensachi" record = Some (PInt score) /\
           score = 50 + i * 5 + (hash E name mod 20) /\
           50 + 5 * i <= score <= 69 + 5 * i)
      [0; 1; 2; 3; 4] schools.
Proof.
  exists (artifact_at E self region (clock w)), (schools_at E region (clock w)), (advance 6 w).
  split; [apply generate_run|].
  split; [apply artifact_schools|].
  unfold schools_at.
  repeat (constructor;
          [eexists; eexists;
           split; [apply record_name|];
           split; [apply record_hensachi|];
           split; [reflexivity|];
           pose proof (Z.mod_pos_bound (hash E (school_name region 0)) 20 eq_refl);
           pose proof (Z.mod_pos_bound (hash E (school_name region 1)) 20 eq_refl);
           pose proof (Z.mod_pos_bound (hash E (school_name region 2)) 20 eq_refl);
           pose proof (Z.mod_pos_bound (hash E (school_name region 3)) 20 eq_refl);
           pose proof (Z.mod_pos_bound (hash E (school_name region 4)) 20 eq_refl);
           lia|]).
  constructor.
Qed.

(** ** Saving an artifact *)

Lemma save_run (E : Env) (self : t) (prefecture : str) (data : pyval) (w : World) :
  let path := path_join (output_dir self) (strip_suffixes prefecture ++ u "_schools.json") in
  exists w',
    save_prefecture_data E self prefecture data w
    = (Ok (match write_json E (fs_calls w) path data with
           | None => true
           | Some _ => false
           end), w') /\
    files w' = match write_json E (fs_calls w) path data with
               | None => dict_set (files w) path (Document data)
               | Some _ =>
                   if file_opened E (fs_calls w) path
                   then dict_set (files w) path (Partial data)
                   else files w
               end /\
    clock w' = clock w /\ http_calls w' = http_calls w /\ slept w' = slept w.
Proof.
  intros path. unfold save_prefecture_data, try_except, bind, dump_json, any_Exception.
  fold path. destruct (write_json E (fs_calls w) path data) as [e|];
    [destruct (file_opened E (fs_calls w) path)|];
    cbn; eexists; repeat split; reflexivity.
Qed.

(** C10. The normalisation that the synthesized names and the artifact file
    names share removes every occurrence of 県, 都 and 府 from the Region, not
    only a trailing one: 京都府 becomes 京, 北海道 stays as it is. The file
    that the persister opens is the one named by the normalised Region: a
    successful write puts the artifact there, and a write that fails after
    the file was opened leaves a part of it there. *)
Theorem normalisation_removes_every_occurrence (E : Env) (self : t) (region : str)
    (data : pyval) (w : World) :
  strip_suffixes region = filter (fun c => negb (is_suffix_char c)) region /\
  strip_suffixes (u "京都府") = u "京" /\
  strip_suffixes (u "北海道") = u "北海道" /\
  (forall i ts,
     field "name" (school_record E region i ts)
     = Some (PStr (filter (fun c => negb (is_suffix_char c)) region ++
                   school_type i ++ chr (65 + i) ++ u "高等学校"))) /\
  let path :=
    path_join (output_dir self)
      (filter (fun c => negb (is_suffix_char c)) region ++ u "_schools.json") in
  exists w',
    save_prefecture_data E self region data w
    = (Ok (match write_json E (fs_calls w) path data with
           | None => true
           | Some _ => false
           end), w') /\
    files w' = match write_json E (fs_calls w) path data with
               | None => dict_set (files w) path (Document data)
               | Some _ =>
                   if file_opened E (fs_calls w) path
                   then dict_set (files w) path (Partial data)
                   else files w
               end.
Proof.
  split; [apply strip_suffixes_filter|].
  split; [reflexivity|].
  split; [reflexivity|].
  split.
  - intros i ts. rewrite record_name. unfold school_name.
    now rewrite strip_suffixes_filter.
  - rewrite <- strip_suffixes_filter.
    destruct (save_run E self region data w) as (w' & Hrun & Hfiles & _).
    exists w'. now split.
Qed.

(** ** Dictionaries *)

Arguments Str.u : simpl never.

Lemma existsb_eqb_In (ks : list str) (k : str) :
  existsb (fun k' => Str.eqb k' k) ks = true <-> In k ks.
Proof.
  rewrite existsb_exists. split.
  - intros (x & Hx & Heq). apply eqb_eq in Heq. now subst.
  - intros H. exists k. split; [easy | apply eqb_refl].
Qed.

Lemma keys_dict_set {V} (d : list (str * V)) (k : str) (v : V) :
  keys (dict_set d k v) = add_key (keys d) k.
Proof.
  unfold add_key, keys. induction d as [|[k' v'] d IH]; [reflexivity|].
  cbn [dict_set map fst existsb]. destruct (Str.eqb k' k) eqn:Hk; cbn [orb map fst].
  - reflexivity.
  - rewrite IH. now destruct (existsb _ (map fst d)).
Qed.

Lemma lookup_dict_set_eq {V} (d : list (str * V)) (k : str) (v : V) :
  dict_lookup (dict_set d k v) k = Some v.
Proof.
  induction d as [|[k' v'] d IH]; cbn [dict_set dict_lookup].
  - now rewrite eqb_refl.
  - destruct (Str.eqb k' k) eqn:Hk; cbn [dict_lookup]; now rewrite Hk.
Qed.

Lemma lookup_dict_set_ne {V} (d : list (str * V)) (k k0 : str) (v : V) :
  k <> k0 -> dict_lookup (dict_set d k v) k0 = dict_lookup d k0.
Proof.
  intros Hne. induction d as [|[k' v'] d IH]; cbn [dict_set dict_lookup].
  - now rewrite eqb_neq.
  - destruct (Str.eqb k' k) eqn:Hk; cbn [dict_lookup].
    + apply eqb_eq in Hk. subst k'. now rewrite eqb_neq.
    + now rewrite IH.
Qed.

Lemma add_key_In (ks : list str) (k r : str) :
  In r (add_key ks k) <-> In r ks \/ r = k.
Proof.
  unfold add_key. destruct (existsb _ ks) eqn:Hex.
  - apply existsb_eqb_In in Hex. split; [tauto | intros [H | ->]; easy].
  - rewrite in_app_iff. cbn. intuition.
Qed.

Lemma add_key_NoDup (ks : list str) (k : str) :
  NoDup ks -> NoDup (add_key ks k).
Proof.
  intros Hnd. unfold add_key. destruct (existsb _ ks) eqn:Hex; [easy|].
  assert (~ In k ks) as Hnot.
  { intros Hin. apply existsb_eqb_In in Hin. congruence. }
  apply NoDup_app; [easy | repeat constructor; easy |].
  intros x Hx [<- | []]. easy.
Qed.

Lemma fold_add_key_In (l ks : list str) (r : str) :
  In r (fold_left add_key l ks) <-> In r ks \/ In r l.
Proof.
  revert ks. induction l as [|k l IH]; intros ks; cbn [fold_left In].
  - tauto.
  - rewrite IH, add_key_In. intuition.
Qed.

Lemma fold_add_key_NoDup (l ks : list str) :
  NoDup ks -> NoDup (fold_left add_key l ks).
Proof.
  revert ks. induction l as [|k l IH]; intros ks Hnd; cbn [fold_left]; [easy|].
  now apply IH, add_key_NoDup.
Qed.

Lemma fold_add_key_fresh (l ks : list str) :
  NoDup l -> (forall x, In x l -> ~ In x ks) -> fold_left add_key l ks = ks ++ l.
Proof.
  revert ks. induction l as [|k l IH]; intros ks Hnd Hfresh; cbn [fold_left].
  - now rewrite app_nil_r.
  - inversion Hnd as [|? ? Hk Hl]; subst.
    assert (add_key ks k = ks ++ [k]) as ->.
    { unfold add_key. destruct (existsb _ ks) eqn:Hex; [|easy].
      apply existsb_eqb_In in Hex. exfalso. apply (Hfresh k); [now left | easy]. }
    rewrite IH; [now rewrite <- app_assoc | easy |].
    intros x Hx Hin. apply in_app_iff in Hin. destruct Hin as [Hin | [<- | []]].
    + apply (Hfresh x); [now right | easy].
    + easy.
Qed.

(** ** The collection orchestrator *)

Section Orchestrator.
Variable E : Env.
Variable self : t.

Lemma process_prefecture_run (total : Z) (results : list (str * bool)) (i : Z)
    (prefecture : str) (w : World) :
  exists b w',
    process_prefecture E self total results (i, prefecture) w
    = (Ok (dict_set results prefecture b), w') /\
    (b = true -> collected E self prefecture).
Proof.
  unfold process_prefecture, bind at 1, logger at 1, try_except, bind at 1.
  match goal with |- context [collect_prefecture_data E self prefecture ?w1] =>
    destruct (collect_prefecture_data E self prefecture w1) as [[data|e] w2] eqn:Hc
  end.
  - destruct (truthy data) eqn:Ht.
    + unfold bind at 1. unfold bind at 1.
      destruct (save_prefecture_data E self prefecture data w2) as [[b|e] w3] eqn:Hs.
      * exists b. destruct (i <? total); cbn; eexists; (split; [reflexivity|]);
          intros ->; unfold collected; eauto 10.
      * cbn. eexists false, _. split; [reflexivity | easy].
    + exists false. destruct (i <? total); cbn; eexists; (split; [reflexivity | easy]).
  - cbn. eexists false, _. split; [reflexivity | easy].
Qed.

Lemma foldM_process_run (total : Z) (l : list str) :
  forall (start : Z) (results : list (str * bool)) (w : World),
  exists results' w',
    foldM (process_prefecture E self total) results (enumerate l start) w
    = (Ok results', w') /\
    keys results' = fold_left add_key l (keys results) /\
    (forall r, dict_lookup results' r = Some true ->
               dict_lookup results r = Some true \/ collected E self r).
Proof.
  induction l as [|p l IH]; intros start results w; cbn [enumerate foldM fold_left].
  - exists results, w. repeat split; tauto.
  - destruct (process_prefecture_run total results start p w) as (b & w1 & Hp & Hb).
    unfold bind. rewrite Hp.
    destruct (IH (start + 1) (dict_set results p b) w1) as (results' & w' & Hf & Hk & Ht).
    exists results', w'. split; [easy|]. split.
    + now rewrite Hk, keys_dict_set.
    + intros r Hr. destruct (Ht r Hr) as [Hset | Hcol]; [|now right].
      destruct (list_eq_dec N.eq_dec p r) as [-> | Hne].
      * rewrite lookup_dict_set_eq in Hset. right. apply Hb. congruence.
      * rewrite lookup_dict_set_ne in Hset by easy. now left.
Qed.

Lemma collect_all_run (w : World) :
  exists results w',
    collect_all_prefectures E self w = (Ok results, w') /\
    keys results = fold_left add_key (prefectures self) [] /\
    (forall r, dict_lookup results r = Some true -> collected E self r).
Proof.
  unfold collect_all_prefectures, bind at 1, logger at 1.
  match goal with |- context [foldM ?f ?r0 ?l ?w1] =>
    destruct (foldM_process_run (Z.of_nat (List.length (prefectures self)))
                (prefectures self) 1 [] w1) as (results & w' & Hf & Hk & Ht)
  end.
  exists results, w'. split; [exact Hf|]. split; [exact Hk|].
  intros r Hr. destruct (Ht r Hr) as [H | H]; [discriminate H | exact H].
Qed.

End Orchestrator.

Lemma dict_lookup_In {V} (d : list (str * V)) (k : str) :
  In k (keys d) <-> exists v, dict_lookup d k = Some v.
Proof.
  unfold keys. induction d as [|[k' v'] d IH]; cbn [map fst In dict_lookup].
  - split; [easy | intros [v Hv]; discriminate].
  - destruct (Str.eqb k' k) eqn:Hk.
    + apply eqb_eq in Hk. split; [eauto | now left].
    + rewrite <- IH. split; [intros [-> | H]; [|easy] | tauto].
      now rewrite eqb_refl in Hk.
Qed.

Lemma dict_lookup_NoDup {V} (d : list (str * V)) (k : str) (v : V) :
  NoDup (keys d) -> In (k, v) d -> dict_lookup d k = Some v.
Proof.
  unfold keys. induction d as [|[k' v'] d IH]; cbn [map fst In dict_lookup]; [easy|].
  intros Hnd [Heq | Hin]; inversion Hnd as [|? ? Hk' Hd]; subst.
  - injection Heq as -> ->. now rewrite eqb_refl.
  - rewrite eqb_neq; [now apply IH|].
    intros ->. apply Hk'. now apply (in_map fst) in Hin.
Qed.

Lemma all_false_of_no_true (d : list (str * bool)) :
  NoDup (keys d) ->
  (forall k, dict_lookup d k <> Some true) ->
  Forall (fun kv => snd kv = false) d.
Proof.
  intros Hnd Hno. apply Forall_forall. intros [k b] Hin. cbn.
  destruct b; [|reflexivity].
  exfalso. apply (Hno k). now apply dict_lookup_NoDup.
Qed.

Section Failures.
Variable E : Env.
Variable self : t.

Lemma fetch_fails_not_collected (prefecture : str) :
  truthy_opt (api_key self) = true ->
  (forall k url headers params timeout,
     exists e, requests_get E k url headers params timeout = Raise e) ->
  ~ collected E self prefecture.
Proof.
  intros Hkey Hget (data & w1 & w2 & w3 & Hc & Ht & _).
  unfold collect_prefecture_data, bind at 1, logger at 1, bind at 1 in Hc.
  unfold _make_api_request in Hc. rewrite Hkey in Hc. cbn [negb] in Hc.
  unfold try_except, bind at 1, get in Hc.
  match type of Hc with context [requests_get E ?k ?a ?b ?c ?d] =>
    destruct (Hget k a b c d) as [e He]; rewrite He in Hc
  end.
  destruct (is_RequestException e); cbn in Hc; [|discriminate Hc].
  injection Hc as <- _. discriminate Ht.
Qed.

Lemma save_fails_not_collected (prefecture : str) :
  (forall k path v, write_json E k path v <> None) ->
  ~ collected E self prefecture.
Proof.
  intros Hw (data & w1 & w2 & w3 & _ & _ & Hs).
  destruct (save_run E self prefecture data w2) as (w' & Hrun & _).
  rewrite Hrun in Hs.
  match type of Hs with context [write_json E ?k ?p ?v] =>
    specialize (Hw k p v); destruct (write_json E k p v); [discriminate Hs | easy]
  end.
Qed.

End Failures.

Lemma nodupb_NoDup (l : list str) : nodupb l = true -> NoDup l.
Proof.
  induction l as [|x l IH]; cbn [nodupb]; [constructor|].
  rewrite andb_true_iff, negb_true_iff. intros [Hx Hl].
  constructor; [|now apply IH].
  intros Hin. apply existsb_eqb_In in Hin. congruence.
Qed.

Lemma PREFECTURES_NoDup : NoDup PREFECTURES.
Proof. apply nodupb_NoDup. vm_compute. reflexivity. Qed.

Lemma PREFECTURES_length : List.length PREFECTURES = 47%nat.
Proof. reflexivity. Qed.

(** C5. Whatever the fetcher and the persister do, the orchestrator returns
    a mapping with exactly one boolean entry for each enumerated Region (in
    the order of the enumeration when it has no repetition; 47 entries for
    the built-in one); an entry is [True] only when the fetch returned
    something and the save succeeded; when every request raises, or every
    write fails, every entry is [False], and all Regions are still there. *)
Theorem orchestrator_one_entry_per_region (E : Env) (self : t) (w : World) :
  exists results w',
    collect_all_prefectures E self w = (Ok results, w') /\
    NoDup (keys results) /\
    (forall r, In r (keys results) <-> In r (prefectures self)) /\
    (forall r, In r (prefectures self) -> exists b, dict_lookup results r = Some b) /\
    (NoDup (prefectures self) -> keys results = prefectures self) /\
    (prefectures self = PREFECTURES -> len results = 47) /\
    (forall r, dict_lookup results r = Some true -> collected E self r) /\
    (truthy_opt (api_key self) = true ->
     (forall k url headers params timeout,
        exists e, requests_get E k url headers params timeout = Raise e) ->
     Forall (fun kv => snd kv = false) results) /\
    ((forall k path v, write_json E k path v <> None) ->
     Forall (fun kv => snd kv = false) results).
Proof.
  destruct (collect_all_run E self w) as (results & w' & Hrun & Hkeys & Htrue).
  assert (NoDup (keys results)) as Hnd.
  { rewrite Hkeys. apply fold_add_key_NoDup. constructor. }
  assert (forall r, In r (keys results) <-> In r (prefectures self)) as Hin.
  { intros r. rewrite Hkeys, fold_add_key_In. cbn. tauto. }
  assert (NoDup (prefectures self) -> keys results = prefectures self) as Hord.
  { intros Hp. rewrite Hkeys. now apply fold_add_key_fresh. }
  exists results, w'.
  split; [exact Hrun|]. split; [exact Hnd|]. split; [exact Hin|].
  split. { intros r Hr. apply dict_lookup_In. now apply Hin. }
  split; [exact Hord|].
  split.
  { intros Hp. unfold len. unfold keys in Hord.
    rewrite <- (length_map fst), Hord, Hp; [reflexivity|].
    rewrite Hp. apply PREFECTURES_NoDup. }
  split; [exact Htrue|].
  split.
  - intros Hkey Hget. apply all_false_of_no_true; [easy|].
    intros k Hk. now apply (fetch_fails_not_collected E self k Hkey Hget), Htrue.
  - intros Hw. apply all_false_of_no_true; [easy|].
    intros k Hk. now apply (save_fails_not_collected E self k Hw), Htrue.
Qed.

(** ** The remote data fetcher *)

Section Fetcher.
Variable E : Env.
Variable self : t.





End Fetcher.




(** ** The notification dispatcher *)



(** ** Halving an integer in binary64 *)

Lemma digits2_size (p : positive) : digits2_pos p = Pos.size p.
Proof. induction p; cbn; congruence. Qed.

Lemma digits2_log2 (p : positive) : Zpos (digits2_pos p) = Z.log2 (Zpos p) + 1.
Proof. rewrite digits2_size. destruct p; cbn; lia. Qed.

(** rounding a mantissa of 54 digits whose last digit is 0 loses nothing *)
Lemma binary_round_aux_even (sx : bool) (m : positive) (e : Z) :
  Zpos (digits2_pos m) = 53 -> -1074 <= e <= 971 ->
  binary_round_aux 53 1024 sx (Zpos m~0) (e - 1) loc_Exact = S754_finite sx m e.
Proof.
  intros Hd He. unfold binary_round_aux, shr_fexp.
  cbn [Zdigits2 digits2_pos shr_record_of_loc].
  rewrite Pos2Z.inj_succ, Hd.
  replace (fexp 53 1024 (Z.succ 53 + (e - 1)) - (e - 1)) with 1
    by (unfold fexp, emin; lia).
  cbn [shr iter_pos shr_1 orb shr_m loc_of_shr_record round_nearest_even Zdigits2].
  rewrite Hd.
  replace (fexp 53 1024 (53 + (e - 1 + 1)) - (e - 1 + 1)) with 0
    by (unfold fexp, emin; lia).
  cbn [shr shr_m].
  replace (e - 1 + 1) with e by lia.
  replace (e <=? 1024 - 53) with true by (symmetry; apply Z.leb_le; lia).
  reflexivity.
Qed.

Lemma div_core_half (p : positive) :
  let d := Zpos (digits2_pos p) in
  d <= 53 ->
  exists m : positive,
    Zpos m = Zpos p * 2 ^ (53 - d) /\
    SFdiv_core_binary 53 1024 (Zpos p) 0 2 0 = (Zpos m~0, d - 55, loc_Exact).
Proof.
  intros d Hd.
  assert (1 <= d) by (unfold d; lia).
  assert (0 < Zpos p * 2 ^ (53 - d)) as Hpos
    by (apply Z.mul_pos_pos; [lia | apply Z.pow_pos_nonneg; lia]).
  exists (Z.to_pos (Zpos p * 2 ^ (53 - d))).
  rewrite Z2Pos.id by exact Hpos. split; [reflexivity|].
  unfold SFdiv_core_binary. cbn [Zdigits2 digits2_pos Pos.succ]. fold d.
  replace (Z.min (fexp 53 1024 (d + 0 - (2 + 0))) (0 - 0)) with (d - 55)
    by (unfold fexp, emin; lia).
  replace (0 - 0 - (d - 55)) with (55 - d) by lia.
  destruct (55 - d) as [|s|s] eqn:Hs; try lia.
  rewrite <- Hs. rewrite Z.shiftl_mul_pow2 by lia.
  replace (Zpos p * 2 ^ (55 - d)) with (2 * (2 * (Zpos p * 2 ^ (53 - d)))).
  2:{ replace (55 - d) with (53 - d + 1 + 1) by lia. rewrite !Z.pow_add_r by lia. lia. }
  pose proof (Z_div_mod (2 * (2 * (Zpos p * 2 ^ (53 - d)))) 2 eq_refl) as Hdiv.
  destruct (Z.div_eucl _ 2) as [q r]. destruct Hdiv as [Hq Hr].
  assert (r = 0) by lia. assert (q = 2 * (Zpos p * 2 ^ (53 - d))) by lia. subst q r.
  f_equal. f_equal.
  destruct (Zpos p * 2 ^ (53 - d)); lia.
Qed.

(** half of a positive integer below [2^53] is a binary64 number *)
Lemma div_half (p : positive) :
  let d := Zpos (digits2_pos p) in
  d <= 53 ->
  exists m : positive,
    Zpos m = Zpos p * 2 ^ (53 - d) /\
    SFdiv 53 1024 (Float.raw (Zpos p)) (Float.raw 2) = S754_finite false m (d - 54).
Proof.
  intros d Hd. destruct (div_core_half p Hd) as (m & Hm & Hcore).
  exists m. split; [exact Hm|].
  cbn [Float.raw SFdiv xorb]. rewrite Hcore. fold d.
  replace (d - 55) with (d - 54 - 1) by lia.
  apply binary_round_aux_even.
  - rewrite digits2_log2, Hm, Z.log2_mul_pow2 by (unfold d; lia).
    pose proof (digits2_log2 p) as Hp. fold d in Hp. lia.
  - unfold d. lia.
Qed.

(** [f < n / 2] in the code is [2 * f < n] *)
Lemma int_ltb_half (f n : Z) :
  0 <= n < 2 ^ 53 ->
  exists x, Float.int_truediv n 2 = Ok x /\ Float.int_ltb f x = (2 * f <? n).
Proof.
  intros Hn. unfold Float.int_truediv. cbn [Z.eqb].
  destruct n as [|p|p]; [| |lia].
  - eexists. split; [reflexivity|]. cbn [Float.int_ltb].
    destruct (Z.ltb_spec f 0), (Z.ltb_spec (2 * f) 0); lia.
  - assert (Zpos (digits2_pos p) <= 53) as Hd.
    { rewrite digits2_log2. assert (Z.log2 (Zpos p) < 53); [|lia].
      apply Z.log2_lt_pow2; lia. }
    destruct (div_half p Hd) as (m & Hm & Hdiv).
    unfold Float.prec, Float.emax. rewrite Hdiv.
    eexists. split; [reflexivity|]. cbn [Float.int_ltb].
    set (d := Zpos (digits2_pos p)) in *.
    assert (1 <= d) by (unfold d; lia).
    replace (0 <=? d - 54) with false by (symmetry; apply Z.leb_gt; lia).
    rewrite Hm. replace (- (d - 54)) with (53 - d + 1) by lia.
    rewrite Z.pow_add_r by lia.
    assert (0 < 2 ^ (53 - d)) by (apply Z.pow_pos_nonneg; lia).
    destruct (Z.ltb_spec (f * (2 ^ (53 - d) * 2 ^ 1)) (Zpos p * 2 ^ (53 - d))),
             (Z.ltb_spec (2 * f) (Zpos p)); try reflexivity; nia.
Qed.

(** ** The notification formatter *)

(** C7. For a completion event with failure count [f] and total count [n]
    (counts that a binary64 float holds exactly), the severity is [success]
    when [f = 0], [warning] when [0 < f] and [f < n/2], that is [2*f < n],
    and [error] otherwise; the colour tags are [good], [warning] and
    [danger], and that colour is what goes to the dispatcher. *)
Theorem completion_severity (E : Env) (self : SlackNotifier.t)
    (results : list (str * pyval)) (f n : Z) :
  0 <= f -> 0 <= n < 2 ^ 53 ->
  dict_lookup results (u "failed_collections") = Some (PInt f) ->
  dict_lookup results (u "total_prefectures") = Some (PInt n) ->
  let status :=
    if f =? 0 then u "success" else if 2 * f <? n then u "warning" else u "error" in
  let color :=
    if f =? 0 then u "good" else if 2 * f <? n then u "warning" else u "danger" in
  SlackNotifier.completion_status (PInt f) (PInt n) = Ok status /\
  SlackNotifier.completion_color status = color /\
  exists message,
    SlackNotifier.notify_deepresearch_completion E self (PDict results)
    = SlackNotifier._send_slack_message E self message color.
Proof.
  intros Hf Hn Hfailed Htotal status color.
  assert (SlackNotifier.completion_status (PInt f) (PInt n) = Ok status) as Hstatus.
  { unfold SlackNotifier.completion_status, status. cbn [SlackNotifier.py_eq_zero].
    destruct (f =? 0); [reflexivity|].
    cbn [SlackNotifier.py_half SlackNotifier.as_int].
    destruct (int_ltb_half f n Hn) as (x & -> & Hlt).
    cbn [SlackNotifier.py_lt_float SlackNotifier.as_int]. rewrite Hlt.
    now destruct (2 * f <? n). }
  assert (SlackNotifier.completion_color status = color) as Hcolor.
  { unfold status, color. destruct (f =? 0); [reflexivity|].
    destruct (2 * f <? n); reflexivity. }
  split; [exact Hstatus|]. split; [exact Hcolor|].
  unfold SlackNotifier.notify_deepresearch_completion.
  unfold bind, lift, py_get. rewrite Hfailed, Htotal, Hstatus, Hcolor.
  eexists. reflexivity.
Qed.

(** ** The success rate in binary64 *)

Lemma Zdigits2_le (m D : Z) : 0 <= m -> 0 <= D -> m < 2 ^ D -> Zdigits2 m <= D.
Proof.
  intros Hm HD Hlt. destruct m as [|p|p]; [exact HD | | lia].
  cbn [Zdigits2]. rewrite digits2_log2.
  assert (Z.log2 (Zpos p) < D); [|lia]. apply Z.log2_lt_pow2; lia.
Qed.

Lemma Zdigits2_nonneg (m : Z) : 0 <= Zdigits2 m.
Proof. destruct m; cbn; lia. Qed.

Lemma shr_m_of_loc (m : Z) (l : location) : shr_m (shr_record_of_loc m l) = m.
Proof. destruct l as [|[]]; reflexivity. Qed.

Lemma shr_1_div2 (r : shr_record) : 0 <= shr_m r -> shr_m (shr_1 r) = shr_m r / 2.
Proof.
  destruct r as [m r s]. cbn [shr_m shr_1]. intros Hm.
  destruct m as [|[p|p|]|p]; cbn [shr_m]; try lia; try reflexivity.
  - apply Z.div_unique with 1; lia.
  - apply Z.div_unique with 0; lia.
Qed.

Lemma iter_pos_nat {A} (f : A -> A) (p : positive) (x : A) :
  iter_pos f p x = Nat.iter (Pos.to_nat p) f x.
Proof.
  revert x. induction p as [p IH|p IH|]; intros x; cbn [iter_pos].
  - rewrite !IH, Pos2Nat.inj_xI.
    replace (S (2 * Pos.to_nat p)) with (Pos.to_nat p + (Pos.to_nat p + 1))%nat by lia.
    now rewrite !Nat.iter_add.
  - rewrite !IH, Pos2Nat.inj_xO.
    replace (2 * Pos.to_nat p)%nat with (Pos.to_nat p + Pos.to_nat p)%nat by lia.
    now rewrite Nat.iter_add.
  - reflexivity.
Qed.

Lemma iter_shr_1 (k : nat) (r : shr_record) :
  0 <= shr_m r ->
  0 <= shr_m (Nat.iter k shr_1 r) /\
  shr_m (Nat.iter k shr_1 r) = shr_m r / 2 ^ Z.of_nat k.
Proof.
  intros Hm. induction k as [|k [IH0 IH]].
  - cbn. split; [exact Hm | now rewrite Z.div_1_r].
  - rewrite Nat.iter_succ, shr_1_div2 by exact IH0. rewrite IH.
    split.
    + apply Z.div_pos; [|lia]. apply Z.div_pos; [exact Hm|]. apply Z.pow_pos_nonneg; lia.
    + rewrite Nat2Z.inj_succ, Z.pow_succ_r by lia.
      rewrite Z.div_div by (try lia; apply Z.pow_pos_nonneg; lia).
      f_equal. lia.
Qed.

(** shifting right by [n] (when positive): the exponent and the mantissa *)
Lemma shr_spec (m : Z) (l : location) (e n : Z) :
  0 <= m ->
  exists mrs,
    shr (shr_record_of_loc m l) e n = (mrs, e + Z.max n 0) /\
    shr_m mrs = m / 2 ^ Z.max n 0.
Proof.
  intros Hm. unfold shr. destruct n as [|p|p].
  - eexists. split; [now rewrite Z.add_0_r|]. now rewrite shr_m_of_loc, Z.div_1_r.
  - rewrite iter_pos_nat.
    destruct (iter_shr_1 (Pos.to_nat p) (shr_record_of_loc m l)) as [_ H];
      [now rewrite shr_m_of_loc|].
    eexists. split; [reflexivity|].
    now rewrite H, shr_m_of_loc, positive_nat_Z.
  - eexists. split; [now rewrite Z.add_0_r|]. now rewrite shr_m_of_loc, Z.div_1_r.
Qed.

Lemma div_pow2_lt (m D k : Z) :
  0 <= m -> 0 <= D -> 0 <= k -> m < 2 ^ D -> m / 2 ^ k < 2 ^ Z.max (D - k) 0.
Proof.
  intros Hm HD Hk Hlt.
  assert (0 < 2 ^ k) by (apply Z.pow_pos_nonneg; lia).
  destruct (Z.le_gt_cases k D).
  - rewrite Z.max_l by lia. apply Z.div_lt_upper_bound; [lia|].
    rewrite <- Z.pow_add_r by lia. now replace (k + (D - k)) with D by lia.
  - rewrite Z.max_r by lia. rewrite Z.div_small; [reflexivity|].
    split; [lia|]. apply Z.lt_le_trans with (2 ^ D); [lia|].
    apply Z.pow_le_mono_r; lia.
Qed.

Lemma round_nearest_even_bounds (m : Z) (l : location) :
  m <= round_nearest_even m l <= m + 1.
Proof. destruct l as [|[]]; cbn; try lia. destruct (Z.even m); lia. Qed.

(** rounding cannot overflow when the value is far below the largest float *)
Lemma binary_round_aux_finite (sx : bool) (mx ex : Z) (lx : location) (D B : Z) :
  0 <= mx < 2 ^ D -> 0 <= D -> D + ex <= B -> -1074 <= B <= 1023 -> ex <= 971 ->
  match binary_round_aux 53 1024 sx mx ex lx with
  | S754_zero s' => s' = sx
  | S754_finite s' m e =>
      s' = sx /\ exists D', 0 <= D' /\ Zpos m < 2 ^ D' /\ D' + e <= B + 1 /\ e <= 971
  | _ => False
  end.
Proof.
  intros [Hm0 Hm] HD HB HBr Hex.
  unfold binary_round_aux, shr_fexp.
  pose proof (Zdigits2_le mx D Hm0 HD Hm) as Hdig.
  pose proof (Zdigits2_nonneg mx) as Hdig0.
  set (n1 := fexp 53 1024 (Zdigits2 mx + ex) - ex).
  destruct (shr_spec mx lx ex n1 Hm0) as (mrs1 & -> & Hm1).
  set (k1 := Z.max n1 0) in *.
  assert (0 <= k1) by lia.
  assert (0 < 2 ^ k1) by (apply Z.pow_pos_nonneg; lia).
  assert (0 <= shr_m mrs1) as Hm1pos by (rewrite Hm1; apply Z.div_pos; lia).
  pose proof (div_pow2_lt mx D k1 Hm0 HD ltac:(lia) Hm) as Hm1lt. rewrite <- Hm1 in Hm1lt.
  set (D1 := Z.max (D - k1) 0) in *.
  pose proof (round_nearest_even_bounds (shr_m mrs1) (loc_of_shr_record mrs1)) as Hr.
  set (m1 := round_nearest_even (shr_m mrs1) (loc_of_shr_record mrs1)) in *.
  assert (0 <= m1) by lia.
  assert (m1 < 2 ^ (D1 + 1)) as Hm1' by (rewrite Z.pow_add_r by lia; lia).
  pose proof (Zdigits2_le m1 (D1 + 1) ltac:(lia) ltac:(lia) Hm1') as Hdig1.
  pose proof (Zdigits2_nonneg m1) as Hdig10.
  set (e1 := ex + k1) in *.
  set (n2 := fexp 53 1024 (Zdigits2 m1 + e1) - e1).
  destruct (shr_spec m1 loc_Exact e1 n2 ltac:(lia)) as (mrs2 & -> & Hm2).
  set (k2 := Z.max n2 0) in *.
  assert (0 <= k2) by lia.
  assert (0 < 2 ^ k2) by (apply Z.pow_pos_nonneg; lia).
  pose proof (div_pow2_lt m1 (D1 + 1) k2 ltac:(lia) ltac:(lia) ltac:(lia) Hm1') as Hm2lt.
  rewrite <- Hm2 in Hm2lt.
  assert (0 <= shr_m mrs2) as Hm2pos by (rewrite Hm2; apply Z.div_pos; lia).
  assert (e1 + k2 <= 971 /\ Z.max (D1 + 1 - k2) 0 + (e1 + k2) <= B + 1) as [He2 HB2].
  { unfold k2, n2, e1, k1, n1, D1, fexp, emin in *. lia. }
  destruct (shr_m mrs2) as [|m|m]; [reflexivity | | lia].
  replace (e1 + k2 <=? 1024 - 53) with true by (symmetry; apply Z.leb_le; lia).
  split; [reflexivity|].
  exists (Z.max (D1 + 1 - k2) 0). repeat split; try lia.
Qed.

Lemma div_core_bounds (ps pt : positive) :
  (ps <= pt)%positive ->
  exists q e' l,
    SFdiv_core_binary 53 1024 (Zpos ps) 0 (Zpos pt) 0 = (q, e', l) /\
    e' <= 0 /\ 0 <= q < 2 ^ (1 - e').
Proof.
  intros Hle. unfold SFdiv_core_binary.
  set (e' := Z.min (fexp 53 1024 (Zdigits2 (Zpos ps) + 0 - (Zdigits2 (Zpos pt) + 0))) (0 - 0)).
  assert (e' <= 0) as He' by (unfold e'; lia).
  set (m' := match 0 - 0 - e' with
             | 0 => Zpos ps
             | Zpos _ => Z.shiftl (Zpos ps) (0 - 0 - e')
             | Zneg _ => 0
             end).
  assert (m' = Zpos ps * 2 ^ (- e')) as Hm'.
  { unfold m'. destruct (0 - 0 - e') as [|sh|sh] eqn:Hs; try lia.
    - replace (- e') with 0 by lia. lia.
    - rewrite <- Hs, Z.shiftl_mul_pow2 by lia.
      replace (0 - 0 - e') with (- e') by lia. reflexivity. }
  pose proof (Z_div_mod m' (Zpos pt) eq_refl) as Hdiv.
  destruct (Z.div_eucl m' (Zpos pt)) as [q r]. destruct Hdiv as [Hq Hr].
  exists q, e', (new_location (Zpos pt) r). split; [reflexivity|]. split; [exact He'|].
  assert (0 < 2 ^ (- e')) as Hpow by (apply Z.pow_pos_nonneg; lia).
  replace (1 - e') with (- e' + 1) by lia. rewrite Z.pow_add_r by lia.
  assert (Zpos ps <= Zpos pt) by lia.
  split; nia.
Qed.

Lemma div_finite (s t : Z) :
  0 <= s <= t -> 0 < t -> finite_nonneg 2 (SFdiv 53 1024 (Float.raw s) (Float.raw t)).
Proof.
  intros [Hs Hst] Ht. destruct t as [|pt|pt]; try lia.
  destruct s as [|ps|ps]; try lia; [exact I|].
  cbn [Float.raw SFdiv xorb].
  destruct (div_core_bounds ps pt ltac:(lia)) as (q & e' & l & -> & He' & Hq).
  pose proof (binary_round_aux_finite false q e' l (1 - e') 1 Hq ltac:(lia) ltac:(lia)
                ltac:(lia) ltac:(lia)) as H.
  unfold finite_nonneg.
  destruct (binary_round_aux 53 1024 false q e' l) as [sg|sg| |sg m e]; try easy.
  - now subst sg.
  - destruct H as [-> H]. exact H.
Qed.

Lemma mul_100_finite (x : spec_float) :
  finite_nonneg 2 x ->
  finite_nonneg 10 (SFmul 53 1024 x (S754_finite false 7036874417766400 (-46))).
Proof.
  destruct x as [[|]|sg| |[|] m e]; try easy. intros H.
  destruct H as (D & HD & Hm & HB & He).
  cbn [SFmul xorb].
  assert (0 <= Zpos (m * 7036874417766400) < 2 ^ (D + 53)) as Hprod.
  { rewrite Pos2Z.inj_mul, Z.pow_add_r by lia. split; [lia|].
    apply Z.mul_lt_mono_nonneg; lia. }
  pose proof (binary_round_aux_finite false (Zpos (m * 7036874417766400)) (e + -46)
                loc_Exact (D + 53) 9 Hprod ltac:(lia) ltac:(lia) ltac:(lia) ltac:(lia)) as H.
  unfold finite_nonneg.
  destruct (binary_round_aux 53 1024 false _ (e + -46) loc_Exact) as [sg|sg| |sg m' e'];
    try easy.
  - now subst sg.
  - destruct H as [-> H]. exact H.
Qed.

Lemma int_truediv_ok (s t : Z) :
  0 <= s <= t -> 0 < t ->
  exists rate,
    Float.int_truediv s t = Ok rate /\
    finite_nonneg 10 (Float.mul rate (Float.of_int 100)).
Proof.
  intros Hs Ht. unfold Float.int_truediv.
  replace (t =? 0) with false by (symmetry; apply Z.eqb_neq; lia).
  pose proof (div_finite s t Hs Ht) as Hdiv.
  unfold Float.prec, Float.emax, Float.mul.
  change (Float.of_int 100) with (S754_finite false 7036874417766400 (-46)).
  destruct (SFdiv 53 1024 (Float.raw s) (Float.raw t)) as [sg|sg| |sg m e] eqn:Hq;
    try easy; eexists; (split; [reflexivity|]); now apply mul_100_finite.
Qed.

Lemma round_half_even_nonneg (n d : Z) : 0 <= n -> 0 < d -> 0 <= Float.round_half_even n d.
Proof.
  intros Hn Hd. unfold Float.round_half_even.
  assert (0 <= n / d) by (apply Z.div_pos; lia).
  destruct (2 * (n mod d) ?= d); [destruct (Z.even (n / d))| |]; lia.
Qed.

Lemma tenths_nonneg (m : positive) (e : Z) : 0 <= Float.tenths m e.
Proof.
  unfold Float.tenths. destruct (0 <=? e) eqn:He.
  - apply Z.leb_le in He.
    assert (0 < 2 ^ e) by (apply Z.pow_pos_nonneg; lia). lia.
  - apply Z.leb_gt in He. apply round_half_even_nonneg; [lia|].
    apply Z.pow_pos_nonneg; lia.
Qed.

Lemma tenths_of_nonneg (x : Float.float) : 0 <= tenths_of x.
Proof. destruct x; cbn [tenths_of]; try lia. apply tenths_nonneg. Qed.

Lemma format_1f_shape (B : Z) (x : Float.float) :
  finite_nonneg B x ->
  Float.format_1f x
  = Str.of_int (tenths_of x / 10) ++ u "." ++ Str.of_int (tenths_of x mod 10).
Proof.
  destruct x as [[|]|sg| |[|] m e]; try easy; intros _; reflexivity.
Qed.

Lemma count_split (results : list (str * bool)) :
  count_successful results + count_failed results = len results /\
  0 <= count_successful results <= len results.
Proof.
  unfold count_successful, count_failed, len, values.
  induction results as [|[k b] results IH]; cbn [map snd filter List.length]; [lia|].
  destruct b; cbn [negb List.length]; lia.
Qed.

Lemma len_pos (results : list (str * bool)) : results <> [] -> 0 < len results.
Proof. destruct results; [easy | unfold len; cbn [List.length]; lia]. Qed.

Lemma rate_table : forallb rate_agrees (map Z.of_nat (seq 1 79)) = true.
Proof. vm_compute. reflexivity. Qed.

Lemma rate_agrees_below_80 (s t : Z) :
  0 <= s <= t -> 0 < t < 80 -> rate_tenths s t = percent_tenths s t.
Proof.
  intros Hs Ht. pose proof rate_table as Htab.
  rewrite forallb_forall in Htab.
  assert (rate_agrees t = true) as Hrow.
  { apply Htab. apply in_map_iff. exists (Z.to_nat t). split; [lia|].
    apply in_seq. lia. }
  unfold rate_agrees in Hrow. rewrite forallb_forall in Hrow.
  apply Z.eqb_eq, Hrow. apply in_map_iff. exists (Z.to_nat s). split; [lia|].
  apply in_seq. lia.
Qed.

(** ** The summary writer *)

(** C6. For every non-empty outcome mapping the summary has
    [successful_collections + failed_collections = total_prefectures], the
    three being the numbers of [True] entries, of [False] entries and of all
    entries, and [success_rate] is a number with exactly one decimal digit
    followed by [%]; up to 79 Regions (the enumeration has 47) that number
    is [successful/total*100] rounded to one decimal. *)
Theorem summary_counts_and_rate (self : t) (results : list (str * bool)) (date : str) :
  results <> [] ->
  exists summary whole tenth,
    build_summary self results date = Ok summary /\
    field "total_prefectures" summary = Some (PInt (len results)) /\
    field "successful_collections" summary = Some (PInt (count_successful results)) /\
    field "failed_collections" summary = Some (PInt (count_failed results)) /\
    count_successful results + count_failed results = len results /\
    field "success_rate" summary
      = Some (PStr (Str.of_int whole ++ u "." ++ Str.of_int tenth ++ u "%")) /\
    0 <= whole /\ 0 <= tenth <= 9 /\
    (len results < 80 ->
     10 * whole + tenth = percent_tenths (count_successful results) (len results)).
Proof.
  intros Hne.
  destruct (count_split results) as [Hsum Hrange].
  pose proof (len_pos results Hne) as Hlen.
  destruct (int_truediv_ok _ _ Hrange Hlen) as (rate & Hrate & Hfin).
  set (x := Float.mul rate (Float.of_int 100)) in *.
  exists (summary_dict self results date rate), (tenths_of x / 10), (tenths_of x mod 10).
  pose proof (tenths_of_nonneg x) as Hx.
  split; [unfold build_summary; now rewrite Hrate|].
  split; [reflexivity|]. split; [reflexivity|].
  split. { replace (count_failed results) with (len results - count_successful results) by lia.
           reflexivity. }
  split; [exact Hsum|].
  split.
  { change (field "success_rate" (summary_dict self results date rate))
      with (Some (PStr (Float.format_1f x ++ u "%"))).
    rewrite (format_1f_shape 10 x Hfin). now rewrite <- !app_assoc. }
  split; [apply Z.div_pos; lia|].
  split; [pose proof (Z.mod_pos_bound (tenths_of x) 10 eq_refl); lia|].
  intros H80. rewrite <- (rate_agrees_below_80 _ _ Hrange (conj Hlen H80)).
  unfold rate_tenths. rewrite Hrate. fold x.
  pose proof (Z.div_mod (tenths_of x) 10 ltac:(lia)). lia.
Qed.

Lemma summary_counts_and_rate_witness :
  [(u "東京都", true); (u "京都府", false); (u "北海道", true)] <> [] /\
  exists summary,
    build_summary collector_offline
      [(u "東京都", true); (u "京都府", false); (u "北海道", true)] (u "2025-01-01")
    = Ok summary /\
    field "success_rate" summary = Some (PStr (u "66.7%")).
Proof.
  split; [discriminate|].
  destruct (summary_counts_and_rate collector_offline
              [(u "東京都", true); (u "京都府", false); (u "北海道", true)]
              (u "2025-01-01") ltac:(discriminate))
    as (summary & whole & tenth & Hs & _).
  exists summary. split; [exact Hs|].
  vm_compute in Hs. injection Hs as <-. vm_compute. reflexivity.
Defined.

Lemma build_summary_empty (self : t) (date : str) :
  build_summary self [] date = Raise (mk_exn ZeroDivisionError (u "division by zero")).
Proof. reflexivity. Qed.

Lemma py_item_success_rate (E : Env) (self : t) (results : list (str * bool)) (date : str)
    (rate : Float.float) :
  py_item E (summary_dict self results date rate) (u "success_rate")
  = Ok (PStr (Float.format_1f (Float.mul rate (Float.of_int 100)) ++ u "%")).
Proof. reflexivity. Qed.

Lemma summary_report_run (E : Env) (self : t) (results : list (str * bool)) (w : World)
    (rate : Float.float) :
  Float.int_truediv (count_successful results) (len results) = Ok rate ->
  let summary := summary_dict self results (isoformat E (clock w)) rate in
  let path := path_join (output_dir self) (u "collection_summary.json") in
  match write_json E (fs_calls w) path summary with
  | None =>
      exists w',
        generate_summary_report E self results w = (Ok tt, w') /\
        files w' = dict_set (files w) path (Document summary)
  | Some e =>
      exists w',
        generate_summary_report E self results w = (Raise e, w') /\
        files w' = if file_opened E (fs_calls w) path
                   then dict_set (files w) path (Partial summary)
                   else files w
  end.
Proof.
  intros Hrate summary path.
  unfold generate_summary_report, build_summary. rewrite Hrate.
  unfold bind, lift, now_isoformat, dump_json, logger, wrote.
  cbn [clock http_calls fs_calls files log slept]. fold summary. fold path.
  destruct (write_json E (fs_calls w) path summary) as [e|].
  - destruct (file_opened E (fs_calls w) path); eexists; split; reflexivity.
  - unfold summary at 1. rewrite py_item_success_rate.
    eexists. split; reflexivity.
Qed.

(** C1, as the code has it. An empty outcome mapping (which is what an
    empty Region list gives) makes the summary writer raise
    [ZeroDivisionError] before anything is written; for every non-empty
    mapping the division is defined, the summary is built, and it is the
    document written when the write succeeds (a write that fails after the
    file was opened leaves a part of it). *)
Theorem summary_needs_a_region (E : Env) (self : t) (results : list (str * bool))
    (w : World) :
  (prefectures self = [] ->
     exists w', collect_all_prefectures E self w = (Ok [], w')) /\
  (results = [] ->
     exists e w',
       generate_summary_report E self results w = (Raise e, w') /\
       exn_class_of e = ZeroDivisionError /\
       files w' = files w) /\
  (results <> [] ->
     exists summary,
       build_summary self results (isoformat E (clock w)) = Ok summary /\
       let path := path_join (output_dir self) (u "collection_summary.json") in
       match write_json E (fs_calls w) path summary with
       | None =>
           exists w',
             generate_summary_report E self results w = (Ok tt, w') /\
             dict_lookup (files w') path = Some (Document summary)
       | Some e =>
           exists w',
             generate_summary_report E self results w = (Raise e, w') /\
             files w' = if file_opened E (fs_calls w) path
                        then dict_set (files w) path (Partial summary)
                        else files w
       end).
Proof.
  split; [|split].
  - intros Hp. unfold collect_all_prefectures. rewrite Hp. cbn. eexists. reflexivity.
  - intros ->. eexists; eexists. repeat split.
  - intros Hne.
    destruct (count_split results) as [_ Hrange].
    destruct (int_truediv_ok _ _ Hrange (len_pos results Hne)) as (rate & Hrate & _).
    exists (summary_dict self results (isoformat E (clock w)) rate).
    split; [unfold build_summary; now rewrite Hrate|].
    pose proof (summary_report_run E self results w rate Hrate) as Hrun.
    cbv zeta in Hrun |- *.
    destruct (write_json E (fs_calls w) _ _) as [e|].
    + exact Hrun.
    + destruct Hrun as (w' & Hrun & Hfiles). exists w'. split; [exact Hrun|].
      rewrite Hfiles. apply lookup_dict_set_eq.
Qed.

Lemma summary_needs_a_region_witness :
  [(u "東京都", true)] <> [] /\
  exists summary,
    build_summary collector_offline [(u "東京都", true)] (isoformat E_offline (clock w0))
    = Ok summary.
Proof.
  split; [discriminate|].
  destruct (summary_needs_a_region E_offline collector_offline [(u "東京都", true)] w0)
    as (_ & _ & H).
  destruct (H ltac:(discriminate)) as (summary & Hs & _).
  now exists summary.
Defined.

(** C1 fails on the code: with an empty Region list the orchestrator
    returns the empty mapping, and the summary writer then raises
    [ZeroDivisionError] and leaves no summary behind. *)
Lemma summary_empty_counterexample :
  exists results w1 e w2,
    collect_all_prefectures E_offline collector_empty w0 = (Ok results, w1) /\
    results = [] /\
    generate_summary_report E_offline collector_empty results w1 = (Raise e, w2) /\
    exn_class_of e = ZeroDivisionError /\
    dict_lookup (files w2) (u "db/schools/collection_summary.json") = None.
Proof.
  eexists; eexists; eexists; eexists.
  split; [vm_compute; reflexivity|].
  split; [reflexivity|].
  split; [vm_compute; reflexivity|].
  split; reflexivity.
Qed.

Lemma completion_severity_witness :
  0 <= 3 /\ 0 <= 47 < 2 ^ 53 /\
  SlackNotifier.completion_status (PInt 3) (PInt 47) = Ok (u "warning") /\
  SlackNotifier.completion_color (u "warning") = u "warning".
Proof.
  split; [lia|]. split; [lia|].
  destruct (completion_severity E_offline notifier_offline
              [(u "failed_collections", PInt 3); (u "total_prefectures", PInt 47)]
              3 47 ltac:(lia) ltac:(lia) eq_refl eq_refl) as (Hs & Hc & _).
  split; [exact Hs | exact Hc].
Defined.

Lemma orchestrator_one_entry_per_region_witness :
  truthy_opt (api_key collector_online) = true /\
  (forall k url headers params timeout,
     exists e, requests_get E_down k url headers params timeout = Raise e) /\
  exists results w',
    collect_all_prefectures E_down collector_online w0 = (Ok results, w') /\
    keys results = PREFECTURES /\
    Forall (fun kv => snd kv = false) results.
Proof.
  split; [reflexivity|].
  assert (forall k url headers params timeout,
            exists e, requests_get E_down k url headers params timeout = Raise e) as Hget.
  { intros. eexists. reflexivity. }
  split; [exact Hget|].
  destruct (orchestrator_one_entry_per_region E_down collector_online w0)
    as (results & w' & Hrun & _ & _ & _ & Hord & _ & _ & Hfail & _).
  exists results, w'. split; [exact Hrun|]. split.
  - apply Hord. apply PREFECTURES_NoDup.
  - apply Hfail; [reflexivity | exact Hget].
Defined.

(** ** Worked runs *)

(** a run without credential: 47 Regions, all saved, and the summary of the
    specification's example *)
Example main_offline_run :
  run_digest (DeepResearchCollector.main E_offline w0)
  = Some (PREFECTURES, repeat true 47, 48%nat,
          Some (PStr (u "100.0%")), Some (PStr (u "placeholder_mode"))).
Proof. vm_compute. reflexivity. Qed.

(** a run with a credential and the network down: 47 Regions, all failed *)
Example main_down_run :
  run_digest (DeepResearchCollector.main E_down w0) = None /\
  match collect_all_prefectures E_down collector_online w0 with
  | (Ok results, w) =>
      keys results = PREFECTURES /\ values results = repeat false 47 /\ files w = []
  | (Raise _, _) => False
  end.
Proof. split; [vm_compute; reflexivity|]. vm_compute. repeat split. Qed.

(** two runs of the synthesizer differ in their timestamps only *)
Example placeholder_timestamps_differ :
  fst (_generate_placeholder_data E_offline collector_offline (search_params (u "東京都")) w0)
  <> fst (_generate_placeholder_data E_offline collector_offline (search_params (u "東京都"))
            (advance 1 w0)).
Proof. rewrite !generate_run. cbn [fst]. vm_compute. discriminate. Qed.

(** the rate is the binary64 one: 23 of 80 prints as 28.7%, where the exact
    28.75 would round to 28.8 *)
Example rate_of_23_in_80 :
  rate_tenths 23 80 = 287 /\ percent_tenths 23 80 = 288 /\
  match Float.int_truediv 23 80 with
  | Ok rate => Float.format_1f (Float.mul rate (Float.of_int 100)) ++ u "%" = u "28.7%"
  | Raise _ => False
  end.
Proof. repeat split; vm_compute; reflexivity. Qed.
